(** * Two-factor-authentication lifecycle of the Calmora client

    Shallow embedding of [src/components/2FA.tsx]: the handlers of the
    [TwoFactor] component ([checkTwoFactorStatus], [enableTwoFactor],
    [verifyAndEnable], [disableTwoFactor]) and its generators
    ([generateSecret], [generateQRCode], [generateBackupCodes]), followed by
    the properties of the lifecycle that hold or fail on that code. *)

From Stdlib Require Import NArith Ascii String List Bool Lia.
From stdpp Require Import base strings gmap list.

Local Open Scope string_scope.

(** ** The JavaScript built-ins the component calls *)

Module JS.

(** Strings are kept as byte strings: the UTF-8 bytes of the JavaScript
    string.  Every string the handlers inspect char by char is ASCII. *)

(** [s.charAt(i)]: the one-character string at index [i], the empty string
    out of range. *)
Fixpoint charAt (s : string) (i : nat) : string :=
  match s, i with
  | EmptyString, _ => ""
  | String c _, O => String c ""
  | String _ s', S i' => charAt s' i'
  end.

(** [s.substring(start, end)] for non-negative arguments: both indices are
    clamped to the length and swapped when [start > end]. *)
Definition substring (s : string) (start end_ : nat) : string :=
  let len := String.length s in
  let a := Nat.min start len in
  let b := Nat.min end_ len in
  let from := Nat.min a b in
  let to := Nat.max a b in
  String.substring from (to - from) s.

(** [s.slice(start, end)] for non-negative arguments: both indices are
    clamped to the length; nothing is taken when [start >= end]. *)
Definition slice (s : string) (start end_ : nat) : string :=
  let len := String.length s in
  let from := Nat.min start len in
  let to := Nat.min end_ len in
  String.substring from (to - from) s.

Definition is_lower (c : ascii) : bool :=
  (97 <=? nat_of_ascii c)%nat && (nat_of_ascii c <=? 122)%nat.

Definition upper_char (c : ascii) : ascii :=
  if is_lower c then ascii_of_nat (nat_of_ascii c - 32) else c.

(** [s.toUpperCase()] on ASCII text. *)
Fixpoint toUpperCase (s : string) : string :=
  match s with
  | EmptyString => ""
  | String c s' => String (upper_char c) (toUpperCase s')
  end.

(** The character class [\d]. *)
Definition is_digit (c : ascii) : bool :=
  (48 <=? nat_of_ascii c)%nat && (nat_of_ascii c <=? 57)%nat.

Fixpoint all_chars (p : ascii -> bool) (s : string) : bool :=
  match s with
  | EmptyString => true
  | String c s' => p c && all_chars p s'
  end.

(** [/^\d+$/.test(s)]: one or more characters, all of them digits. *)
Definition test_digits (s : string) : bool :=
  match s with
  | EmptyString => false
  | String _ _ => all_chars is_digit s
  end.

Definition hex_digit (n : nat) : string := charAt "0123456789ABCDEF" n.

(** The characters [encodeURIComponent] leaves alone:
    letters, digits and [- _ . ! ~ * ' ( )]. *)
Definition uri_unreserved (c : ascii) : bool :=
  let n := nat_of_ascii c in
  is_lower c || is_digit c
  || ((65 <=? n)%nat && (n <=? 90)%nat)
  || existsb (Nat.eqb n) [45; 95; 46; 33; 126; 42; 39; 40; 41]%nat.

(** [encodeURIComponent(s)]: every other byte of the UTF-8 text becomes
    [%XX]. *)
Fixpoint encodeURIComponent (s : string) : string :=
  match s with
  | EmptyString => ""
  | String c s' =>
      (if uri_unreserved c then String c ""
       else "%" ++ hex_digit (nat_of_ascii c / 16)
                ++ hex_digit (nat_of_ascii c mod 16))
      ++ encodeURIComponent s'
  end.

(** *** Numbers drawn by [Math.random()]

    [Math.random()] returns a double in the interval [0, 1).  Such a double
    is a binary fraction [0.b1 b2 ... bk]; it is kept as the list of its
    binary digits after the point, most significant first. *)
Definition unit_double : Type := list bool.

Definition numerator (r : unit_double) : N :=
  fold_left (fun acc (b : bool) => (2 * acc + (if b then 1 else 0))%N) r 0%N.

Definition denominator (r : unit_double) : N := (2 ^ N.of_nat (List.length r))%N.

(** [Math.floor(r * n)]. *)
Definition floor_mul (r : unit_double) (n : nat) : nat :=
  N.to_nat (numerator r * N.of_nat n / denominator r).

Definition radix_chars : string := "0123456789abcdefghijklmnopqrstuvwxyz".

(** The radix-36 digits of the fraction [num / den], one per round: the
    integer part of [36 * num / den] is written and the remainder carried
    on, until nothing is left. *)
Fixpoint fraction_digits (fuel : nat) (num den : N) : string :=
  match fuel with
  | O => ""
  | S fuel' =>
      if (num =? 0)%N then ""
      else
        let p := (36 * num)%N in
        charAt radix_chars (N.to_nat (p / den))
          ++ fraction_digits fuel' (p mod den) den
  end.

(** [r.toString(36)] for [r] in [0, 1): ["0"] for zero, otherwise ["0."]
    followed by the radix-36 digits of the fraction.  A fraction of [k]
    binary digits has at most [k] digits in radix 36 (in fact [k/2],
    rounded up), which bounds the rounds.

    ECMAScript leaves the conversion for a radix other than 10 to the
    engine: how many digits are printed, and how the last of them are
    rounded.  The digits written here are those of the exact expansion. *)
Definition toString36 (r : unit_double) : string :=
  if (numerator r =? 0)%N then "0"
  else "0." ++ fraction_digits (List.length r) (numerator r) (denominator r).

(** [l.join(sep)]: the elements with [sep] between them. *)
Fixpoint join (sep : string) (l : list string) : string :=
  match l with
  | [] => ""
  | s :: l' =>
      match l' with
      | [] => s
      | _ :: _ => s ++ sep ++ join sep l'
      end
  end.

End JS.

(** ** The generators of the component *)

(** The stream of values the calls of [Math.random()] return during one
    handler run: draw [i] is the value of the [i]-th call. *)
Abbreviation draws := (nat -> JS.unit_double).

(** [generateSecret]: 32 characters, each picked from [chars] at the index
    [Math.floor(Math.random() * chars.length)]. *)
Definition secret_chars : string := "ABCDEFGHIJKLMNOPQRSTUVWXYZ234567".

Definition generateSecret (rand : draws) : string :=
  fold_left
    (fun result i =>
       result ++ JS.charAt secret_chars
                   (JS.floor_mul (rand i) (String.length secret_chars)))
    (seq 0 32) "".

(** [generateQRCode]: the otpauth URI wrapped in the URL of the QR service. *)
Definition generateQRCode (email secret : string) : string :=
  let otpauth :=
    "otpauth://totp/Calmora:" ++ email ++ "?secret=" ++ secret ++ "&issuer=Calmora" in
  "https://api.qrserver.com/v1/create-qr-code/?size=200x200&data="
    ++ JS.encodeURIComponent otpauth.

(** One backup code:
    [Math.random().toString(36).substring(2, 10).toUpperCase()]. *)
Definition backup_code (r : JS.unit_double) : string :=
  JS.toUpperCase (JS.substring (JS.toString36 r) 2 10).

(** [generateBackupCodes]: eight rounds, each pushing one code. *)
Definition generateBackupCodes (rand : draws) : list string :=
  fold_left (fun codes i => (codes ++ [backup_code (rand i)])%list) (seq 0 8) [].

(** ** The persisted record and the table [user_2fa] *)

(** Modelled from the spec: the declaration of the table [user_2fa] is not
    part of the sources.  This is one row of it, without its key.  Following
    the data model, the table is keyed by the user id (at most one record
    per user), [secret] may be null, and the backup codes are empty until
    they are populated (a null column and an empty array are both the empty
    list). *)
Record row : Type := Row {
  secret : option string;
  is_enabled : bool;
  backup_codes : list string
}.

Abbreviation table := (gmap string row).

Module Table.

(** [.select('is_enabled').eq('user_id', uid).maybeSingle()]: the column of
    the user's row, or null. *)
Definition select_is_enabled (uid : string) (t : table) : option bool :=
  is_enabled <$> t !! uid.

(** [.upsert({ user_id, secret, is_enabled: false })]: inserts the row, or
    on a conflict overwrites the columns given and keeps the others. *)
Definition upsert_secret (uid s : string) (t : table) : table :=
  match t !! uid with
  | Some r => <[uid := Row (Some s) false (backup_codes r)]> t
  | None => <[uid := Row (Some s) false []]> t
  end.

(** [.update({ is_enabled: true, backup_codes: codes }).eq('user_id', uid)]:
    changes the rows that match; no row is no error. *)
Definition update_enabled (uid : string) (codes : list string) (t : table) : table :=
  alter (fun r => Row (secret r) true codes) uid t.

(** [.update({ is_enabled: false }).eq('user_id', uid)]. *)
Definition update_disabled (uid : string) (t : table) : table :=
  alter (fun r => Row (secret r) false (backup_codes r)) uid t.

End Table.

(** How a call to the backend ends: it resolves without an error, resolves
    with an [error] object, or rejects.  A call that does not resolve cleanly
    leaves the table as it was. *)
Inductive response : Type :=
  | Resolved
  | Failed (message : string)
  | Rejected (message : string).

(** ** The component *)

Record account : Type := Account {
  user_id : string;
  user_email : option string
}.

(** [user.email!] inside a template literal. *)
Definition email_text (u : account) : string :=
  match user_email u with Some e => e | None => "undefined" end.

Inductive variant : Type := Default | Destructive.

Record toast : Type := Toast {
  toast_variant : variant;
  title : string;
  description : string
}.

(** The [useState] cells. *)
Record component : Type := Component {
  isEnabled : bool;
  isEnabling : bool;
  isDisabling : bool;
  verificationCode : string;
  qrCodeUrl : string;
  backupCodes : list string;
  showSetup : bool;
  loading : bool
}.

Definition mounted : component :=
  Component false false false "" "" [] false true.

Definition setIsEnabled (b : bool) (c : component) : component :=
  Component b (isEnabling c) (isDisabling c) (verificationCode c) (qrCodeUrl c)
    (backupCodes c) (showSetup c) (loading c).
Definition setIsEnabling (b : bool) (c : component) : component :=
  Component (isEnabled c) b (isDisabling c) (verificationCode c) (qrCodeUrl c)
    (backupCodes c) (showSetup c) (loading c).
Definition setIsDisabling (b : bool) (c : component) : component :=
  Component (isEnabled c) (isEnabling c) b (verificationCode c) (qrCodeUrl c)
    (backupCodes c) (showSetup c) (loading c).
Definition setVerificationCode (s : string) (c : component) : component :=
  Component (isEnabled c) (isEnabling c) (isDisabling c) s (qrCodeUrl c)
    (backupCodes c) (showSetup c) (loading c).
Definition setQrCodeUrl (s : string) (c : component) : component :=
  Component (isEnabled c) (isEnabling c) (isDisabling c) (verificationCode c) s
    (backupCodes c) (showSetup c) (loading c).
Definition setBackupCodes (l : list string) (c : component) : component :=
  Component (isEnabled c) (isEnabling c) (isDisabling c) (verificationCode c)
    (qrCodeUrl c) l (showSetup c) (loading c).
Definition setShowSetup (b : bool) (c : component) : component :=
  Component (isEnabled c) (isEnabling c) (isDisabling c) (verificationCode c)
    (qrCodeUrl c) (backupCodes c) b (loading c).
Definition setLoading (b : bool) (c : component) : component :=
  Component (isEnabled c) (isEnabling c) (isDisabling c) (verificationCode c)
    (qrCodeUrl c) (backupCodes c) (showSetup c) b.

(** Everything a handler reads or writes: the signed-in user of [useAuth],
    the state cells, the table behind [supabase], the toasts shown and the
    lines written with [console.error]. *)
Record world : Type := World {
  user : option account;
  ui : component;
  user_2fa : table;
  toasts : list toast;
  console : list (string * string)
}.

Definition render (f : component -> component) (w : world) : world :=
  World (user w) (f (ui w)) (user_2fa w) (toasts w) (console w).
Definition write (f : table -> table) (w : world) : world :=
  World (user w) (ui w) (f (user_2fa w)) (toasts w) (console w).
Definition show_toast (t : toast) (w : world) : world :=
  World (user w) (ui w) (user_2fa w) (toasts w ++ [t])%list (console w).
Definition console_error (label message : string) (w : world) : world :=
  World (user w) (ui w) (user_2fa w) (toasts w) (console w ++ [(label, message)])%list.

(** ** The handlers

    Each handler is one asynchronous function of the component.  It is run
    to completion as one step: [resp] is how its single backend call ends and
    [rand] what [Math.random()] returns while it runs. *)

Definition checkTwoFactorStatus (resp : response) (w : world) : world :=
  match user w with
  | None => w
  | Some u =>
      let w :=
        match resp with
        | Resolved =>
            let data := Table.select_is_enabled (user_id u) (user_2fa w) in
            render (setIsEnabled (default false data)) w
        | Failed message => console_error "Error checking 2FA status:" message w
        | Rejected message => console_error "Error checking 2FA status:" message w
        end in
      render (setLoading false) w
  end.

Definition enableTwoFactor (rand : draws) (resp : response) (w : world) : world :=
  match user w with
  | None => w
  | Some u =>
      let w := render (setIsEnabling true) w in
      let secret := generateSecret rand in
      let qrCode := generateQRCode (email_text u) secret in
      let w := render (setQrCodeUrl qrCode) w in
      let w := render (setShowSetup true) w in
      let w :=
        match resp with
        | Resolved =>
            let w := write (Table.upsert_secret (user_id u) secret) w in
            show_toast
              (Toast Default "Setup started"
                 "Scan the QR code with your authenticator app") w
        | Failed message => show_toast (Toast Destructive "Setup failed" message) w
        | Rejected message => show_toast (Toast Destructive "Setup failed" message) w
        end in
      render (setIsEnabling false) w
  end.

(** The test of the submitted code: [true] when the handler throws
    ['Please enter a valid 6-digit code']. *)
Definition code_rejected (code : string) : bool :=
  negb (String.length code =? 6)%nat || negb (JS.test_digits code).

Definition verifyAndEnable (rand : draws) (resp : response) (w : world) : world :=
  match user w with
  | None => w
  | Some u =>
      let code := verificationCode (ui w) in
      if decide (code = "") then w
      else if code_rejected code then
        show_toast
          (Toast Destructive "Verification failed"
             "Please enter a valid 6-digit code") w
      else
        let codes := generateBackupCodes rand in
        match resp with
        | Resolved =>
            let w := write (Table.update_enabled (user_id u) codes) w in
            let w := render (setIsEnabled true) w in
            let w := render (setBackupCodes codes) w in
            let w := render (setShowSetup false) w in
            let w := render (setVerificationCode "") w in
            show_toast
              (Toast Default "2FA enabled successfully!"
                 "Your account is now more secure. Save your backup codes.") w
        | Failed message =>
            show_toast (Toast Destructive "Verification failed" message) w
        | Rejected message =>
            show_toast (Toast Destructive "Verification failed" message) w
        end
  end.

Definition disableTwoFactor (resp : response) (w : world) : world :=
  match user w with
  | None => w
  | Some u =>
      let w := render (setIsDisabling true) w in
      let w :=
        match resp with
        | Resolved =>
            let w := write (Table.update_disabled (user_id u)) w in
            let w := render (setIsEnabled false) w in
            let w := render (setBackupCodes []) w in
            show_toast
              (Toast Default "2FA disabled"
                 "Two-factor authentication has been disabled for your account") w
        | Failed message =>
            show_toast (Toast Destructive "Failed to disable 2FA" message) w
        | Rejected message =>
            show_toast (Toast Destructive "Failed to disable 2FA" message) w
        end in
      render (setIsDisabling false) w
  end.

(** The [onChange] of the code input:
    [e.target.value.replace(/\D/g, '').slice(0, 6)]. *)
Fixpoint strip_non_digits (s : string) : string :=
  match s with
  | EmptyString => ""
  | String c s' =>
      if JS.is_digit c then String c (strip_non_digits s') else strip_non_digits s'
  end.

Definition onChange (value : string) (w : world) : world :=
  render (setVerificationCode (JS.slice (strip_non_digits value) 0 6)) w.

(** ** What the component renders *)

(** The status line of the card. *)
Definition status_line (c : component) : string :=
  "2FA is " ++ (if isEnabled c then "enabled" else "disabled").

(** The three sections of the card and the buttons in them: the setup
    section with the enable button, the QR section with the verify button,
    the danger zone with the disable button.  Nothing but the spinner is
    rendered while [loading]. *)
Definition offers_enable (c : component) : bool :=
  negb (loading c) && negb (isEnabled c) && negb (showSetup c) && negb (isEnabling c).
Definition offers_verify (c : component) : bool :=
  negb (loading c) && showSetup c && (String.length (verificationCode c) =? 6)%nat.
Definition offers_disable (c : component) : bool :=
  negb (loading c) && isEnabled c && negb (isDisabling c).

(** ** Runs of the component *)

(** What can happen to a component: the session changes, the effect or a
    button runs a handler, the user types into the code input or cancels
    the setup. *)
Inductive event : Type :=
  | Session (u : option account)
  | CheckStatus (resp : response)
  | Enable (rand : draws) (resp : response)
  | TypeCode (value : string)
  | Verify (rand : draws) (resp : response)
  | Cancel
  | Disable (resp : response).

Definition step (w : world) (e : event) : world :=
  match e with
  | Session u => World u (ui w) (user_2fa w) (toasts w) (console w)
  | CheckStatus resp => checkTwoFactorStatus resp w
  | Enable rand resp => enableTwoFactor rand resp w
  | TypeCode value => onChange value w
  | Verify rand resp => verifyAndEnable rand resp w
  | Cancel => render (setShowSetup false) w
  | Disable resp => disableTwoFactor resp w
  end.

Definition run (w : world) (es : list event) : world := fold_left step es w.

(** A freshly mounted component over an empty table. *)
Definition start (u : option account) : world := World u mounted ∅ [] [].

(** ** The lifecycle of the specification *)

Inductive State : Type := Disabled | PendingVerification | Enabled.

(** The state the specification reads off the persisted record: no record
    or a null secret is [Disabled]; a secret with [isEnabled = false] is
    [PendingVerification]; [isEnabled = true] is [Enabled]. *)
Definition spec_state (rec : option row) : State :=
  match rec with
  | None => Disabled
  | Some r =>
      match secret r with
      | None => Disabled
      | Some _ => if is_enabled r then Enabled else PendingVerification
      end
  end.

(** Whether the record is active protection: [isEnabled = true]. *)
Definition protected (rec : option row) : bool :=
  match rec with Some r => is_enabled r | None => false end.

(** The record invariant: [isEnabled = true] implies a secret and at least
    one backup code. *)
Definition record_invariant (r : row) : Prop :=
  is_enabled r = true -> secret r <> None /\ backup_codes r <> [].

Definition table_invariant (t : table) : Prop :=
  forall uid r, t !! uid = Some r -> record_invariant r.

(** The alphabet of a backup code: [0-9] and [A-Z]. *)
Definition is_upper (c : ascii) : bool :=
  (65 <=? nat_of_ascii c)%nat && (nat_of_ascii c <=? 90)%nat.
Definition code_char (c : ascii) : bool := JS.is_digit c || is_upper c.
Definition radix_char (c : ascii) : bool := JS.is_digit c || JS.is_lower c.

(** ** Named outcomes and scenarios *)

(** The toasts of [verifyAndEnable]: success, and the two ways it reports
    ["Verification failed"]. *)
Definition toast_enabled : toast :=
  Toast Default "2FA enabled successfully!"
    "Your account is now more secure. Save your backup codes.".
Definition toast_verification_failed (message : string) : toast :=
  Toast Destructive "Verification failed" message.
Definition toast_invalid_code : toast :=
  toast_verification_failed "Please enter a valid 6-digit code".

(** A string of exactly six decimal digits. *)
Definition six_digits (code : string) : bool :=
  (String.length code =? 6)%nat && JS.all_chars JS.is_digit code.

(** The code the user submits is the content of the code input. *)
Definition submit (code : string) (w : world) : world :=
  render (setVerificationCode code) w.

(** What the status check yields for a component mounted over a table. *)
Definition checked_status (u : account) (resp : response) (t : table) : component :=
  ui (checkTwoFactorStatus resp (World (Some u) mounted t [] [])).

(** A state the component reaches from an empty table. *)
Definition reachable (w : world) : Prop :=
  exists (u : option account) (es : list event), w = run (start u) es.

(** Every record holds a secret, and an enabled one holds backup codes. *)
Definition table_sound (t : table) : Prop :=
  forall uid r, t !! uid = Some r ->
    secret r <> None /\ (is_enabled r = true -> backup_codes r <> []).

Definition alice : account := Account "u1" (Some "alice@example.org").

Definition sample_secret : string := "JBSWY3DPEHPK3PXPJBSWY3DPEHPK3PXP".

Definition old_codes : list string := ["4F9K2M7Q"; "ZP03X8RT"].

(** Draws of seven binary digits, alternating between two values. *)
Definition coin : draws :=
  fun i => [Nat.odd i; true; Nat.even i; true; true; false; true].

(** Two different doubles just above one half: [1/2 + 2^-52 + 2^-53] and
    [1/2 + 2^-52]. *)
Definition above_half (last : bool) : JS.unit_double :=
  (true :: repeat false 50 ++ [true; last])%list.
Definition close_draws : draws :=
  fun i => match i with
           | 0 => above_half true
           | 1 => above_half false
           | _ => [Nat.odd i; true; Nat.even i; true; true; false; true]
           end.

(** Alice's component during setup, over a table with her pending record. *)
Definition pending_world (s : string) : world :=
  World (Some alice) (setShowSetup true (setLoading false mounted))
    {[ "u1" := Row (Some s) false [] ]} [] [].

(** Alice's component during setup, over a table in which her record is
    already enabled. *)
Definition enabled_table : table :=
  {[ "u1" := Row (Some sample_secret) true old_codes ]}.
Definition enabled_world : world :=
  World (Some alice) (setShowSetup true (setLoading false mounted))
    enabled_table [] [].

(** [confirmEnrollment] on a pending record with a given secret and code. *)
Definition confirm (s code : string) : world :=
  verifyAndEnable coin Resolved (submit code (pending_world s)).

(** ** More of the component: copying the codes, and the vocabulary of
    the further properties *)

(** The line feed the codes are joined with. *)
Definition newline : string := String "010"%char "".

Definition not_newline (c : ascii) : bool := negb (nat_of_ascii c =? 10)%nat.

(** [copyBackupCodes]: the displayed codes, one per line, go to the
    clipboard and a toast confirms it.  The result is the text written to
    the clipboard and the world after the call. *)
Definition copyBackupCodes (w : world) : string * world :=
  let codesText := JS.join newline (backupCodes (ui w)) in
  (codesText,
   show_toast
     (Toast Default "Backup codes copied" "Store these codes in a safe place") w).

(** The backup-code panel is rendered while there are codes to show. *)
Definition shows_backup_codes (c : component) : bool :=
  negb (loading c) && (0 <? length (backupCodes c))%nat.

(** The alphabet of a secret: [A-Z] and [2-7]. *)
Definition base32_char (c : ascii) : bool :=
  is_upper c || ((50 <=? nat_of_ascii c)%nat && (nat_of_ascii c <=? 55)%nat).

(** What an encoded URI component is made of: unreserved characters and
    the percent sign of an escape. *)
Definition encoded_char (c : ascii) : bool :=
  JS.uri_unreserved c || (nat_of_ascii c =? 37)%nat.

(** The number of binary digits of a draw up to its last one: 0 for zero. *)
Fixpoint significant_bits (r : JS.unit_double) : nat :=
  match r with
  | [] => 0
  | b :: r' =>
      match significant_bits r' with
      | O => if b then 1 else 0
      | S n => S (S n)
      end
  end.

(** The value of a hexadecimal digit, and the reading of an escaped text
    that undoes [JS.encodeURIComponent]. *)
Definition hex_value (c : ascii) : nat :=
  let n := nat_of_ascii c in
  if (n <=? 57)%nat then n - 48 else n - 55.

Fixpoint unescape (s : string) : string :=
  match s with
  | EmptyString => ""
  | String c s' =>
      if (nat_of_ascii c =? 37)%nat then
        match s' with
        | String h (String l s'') =>
            String (ascii_of_nat (16 * hex_value h + hex_value l)) (unescape s'')
        | _ => s
        end
      else String c (unescape s')
  end.

(** No event of the list is a confirmation whose update resolves. *)
Definition is_resolved_verify (e : event) : bool :=
  match e with Verify _ Resolved => true | _ => false end.
Definition is_resolved_enable (e : event) : bool :=
  match e with Enable _ Resolved => true | _ => false end.

(** The content of the code input: digits only, six at most. *)
Definition code_cell_ok (c : component) : Prop :=
  JS.all_chars JS.is_digit (verificationCode c) = true
  /\ String.length (verificationCode c) <= 6.

(** The codes a component displays: none, or the eight of one generation. *)
Definition displayed_codes_ok (c : component) : Prop :=
  backupCodes c = [] \/ exists rand : draws, backupCodes c = generateBackupCodes rand.

(** What the handlers write into a record: a secret of 32 characters over
    [A-Z2-7], and either no backup codes or eight of them, each of at most
    eight characters over [0-9A-Z]. *)
Definition well_formed_codes (codes : list string) : Prop :=
  codes = []
  \/ (length codes = 8
      /\ Forall (fun code => JS.all_chars code_char code = true
                             /\ String.length code <= 8) codes).

Definition well_formed_record (r : row) : Prop :=
  (exists s, secret r = Some s
             /\ String.length s = 32
             /\ JS.all_chars base32_char s = true)
  /\ well_formed_codes (backup_codes r).

Definition table_well_formed (t : table) : Prop :=
  forall uid r, t !! uid = Some r -> well_formed_record r.

(** * Properties *)

(** ** The built-ins on small inputs *)

Example charAt_in : JS.charAt "abc" 1 = "b". Proof. reflexivity. Qed.
Example charAt_out : JS.charAt "abc" 3 = "". Proof. reflexivity. Qed.
Example substring_short : JS.substring "0.i" 2 10 = "i". Proof. reflexivity. Qed.
Example substring_zero : JS.substring "0" 2 10 = "". Proof. reflexivity. Qed.
Example substring_long : JS.substring "0.abcdefghijk" 2 10 = "abcdefgh". Proof. reflexivity. Qed.
Example encode_otpauth :
  JS.encodeURIComponent "otpauth://totp/Calmora:a@b.c?secret=AB&issuer=Calmora"
  = "otpauth%3A%2F%2Ftotp%2FCalmora%3Aa%40b.c%3Fsecret%3DAB%26issuer%3DCalmora".
Proof. reflexivity. Qed.
Example half_toString36 : JS.toString36 [true] = "0.i". Proof. reflexivity. Qed.
Example quarter_toString36 : JS.toString36 [false; true] = "0.9". Proof. reflexivity. Qed.
Example eighth_toString36 : JS.toString36 [false; false; true] = "0.4i". Proof. reflexivity. Qed.
Example zero_toString36 : JS.toString36 [false; false] = "0". Proof. reflexivity. Qed.
Example strip_then_slice :
  verificationCode (ui (onChange "12a34-5678" (start None))) = "123456".
Proof. reflexivity. Qed.
Example secret_of_coin :
  generateSecret coin = "P3P3P3P3P3P3P3P3P3P3P3P3P3P3P3P3".
Proof. reflexivity. Qed.
Example codes_of_coin :
  generateBackupCodes coin
  = ["H5MI"; "UNMI"; "H5MI"; "UNMI"; "H5MI"; "UNMI"; "H5MI"; "UNMI"].
Proof. reflexivity. Qed.

(** ** Strings *)

Section Strings.

Variable p : ascii -> bool.

Lemma all_chars_app (s t : string) :
  JS.all_chars p (s ++ t) = JS.all_chars p s && JS.all_chars p t.
Proof.
  induction s as [|c s IH]; simpl; [reflexivity|].
  rewrite IH. apply andb_assoc.
Qed.

Lemma all_chars_charAt (s : string) (i : nat) :
  JS.all_chars p s = true -> JS.all_chars p (JS.charAt s i) = true.
Proof.
  revert i. induction s as [|c s IH]; intros i H; [reflexivity|].
  simpl in H. apply andb_prop in H as [Hc Hs].
  destruct i as [|i]; simpl.
  - rewrite Hc. reflexivity.
  - apply IH, Hs.
Qed.

Lemma all_chars_substring (s : string) (n m : nat) :
  JS.all_chars p s = true -> JS.all_chars p (String.substring n m s) = true.
Proof.
  revert n m. induction s as [|c s IH]; intros n m H.
  - destruct n, m; reflexivity.
  - simpl in H. apply andb_prop in H as [Hc Hs].
    destruct n as [|n]; simpl.
    + destruct m as [|m]; simpl; [reflexivity|].
      rewrite Hc. apply IH, Hs.
    + apply IH, Hs.
Qed.

End Strings.

Lemma substring_length (s : string) (n m : nat) :
  String.length (String.substring n m s) <= m.
Proof.
  revert n m. induction s as [|c s IH]; intros n m.
  - destruct n, m; simpl; lia.
  - destruct n as [|n]; simpl.
    + destruct m as [|m]; simpl; [lia|]. specialize (IH 0 m). lia.
    + apply IH.
Qed.

Lemma js_substring_length (s : string) (a b : nat) :
  a <= b -> String.length (JS.substring s a b) <= b - a.
Proof.
  intros Hab. unfold JS.substring.
  etransitivity; [apply substring_length|]. lia.
Qed.

(** [substring(2, 10)] of a text that starts with two characters is taken
    from what follows them. *)
Lemma js_substring_skip2 (a b : ascii) (s : string) :
  exists m, JS.substring (String a (String b s)) 2 10 = String.substring 0 m s.
Proof.
  unfold JS.substring.
  set (len := String.length (String a (String b s))).
  assert (Hlen : 2 <= len) by (subst len; simpl; lia).
  replace (Nat.min (Nat.min 2 len) (Nat.min 10 len)) with 2 by lia.
  eexists. reflexivity.
Qed.

Lemma toUpperCase_length (s : string) :
  String.length (JS.toUpperCase s) = String.length s.
Proof. induction s as [|c s IH]; simpl; congruence. Qed.

Lemma upper_char_code_char (c : ascii) :
  radix_char c = true -> code_char (JS.upper_char c) = true.
Proof.
  destruct c as [[] [] [] [] [] [] [] []]; vm_compute; intros H;
    first [reflexivity | discriminate H].
Qed.

Lemma toUpperCase_code_chars (s : string) :
  JS.all_chars radix_char s = true ->
  JS.all_chars code_char (JS.toUpperCase s) = true.
Proof.
  induction s as [|c s IH]; simpl; [reflexivity|].
  intros H. apply andb_prop in H as [Hc Hs].
  rewrite (upper_char_code_char c Hc). apply IH, Hs.
Qed.

(** ** Radix-36 digits *)

Lemma radix_chars_ok : JS.all_chars radix_char JS.radix_chars = true.
Proof. reflexivity. Qed.

Lemma fraction_digits_radix (fuel : nat) (num den : N) :
  JS.all_chars radix_char (JS.fraction_digits fuel num den) = true.
Proof.
  revert num. induction fuel as [|fuel IH]; intros num;
    cbn [JS.fraction_digits]; [reflexivity|].
  destruct (num =? 0)%N; [reflexivity|].
  rewrite all_chars_app, IH, andb_true_r.
  apply all_chars_charAt, radix_chars_ok.
Qed.

(** ** Draws of [Math.random()]

    A draw is a fraction below one, [floor_mul] stays below its factor, and
    the rounds [toString36] allows are enough to write every radix-36 digit
    of the fraction: more rounds write nothing more. *)

Lemma numerator_app (r : JS.unit_double) (b : bool) :
  JS.numerator (r ++ [b])%list = (2 * JS.numerator r + (if b then 1 else 0))%N.
Proof. unfold JS.numerator. rewrite fold_left_app. reflexivity. Qed.

Lemma numerator_lt_denominator (r : JS.unit_double) :
  (JS.numerator r < JS.denominator r)%N.
Proof.
  induction r as [|b r IH] using rev_ind.
  - reflexivity.
  - rewrite numerator_app. unfold JS.denominator in *.
    rewrite length_app. simpl length.
    replace (N.of_nat (length r + 1)) with (N.succ (N.of_nat (length r))) by lia.
    rewrite N.pow_succ_r'. destruct b; lia.
Qed.

Lemma floor_mul_lt (r : JS.unit_double) (n : nat) :
  0 < n -> JS.floor_mul r n < n.
Proof.
  intros Hn. unfold JS.floor_mul.
  pose proof (numerator_lt_denominator r) as Hlt.
  assert (JS.numerator r * N.of_nat n / JS.denominator r < N.of_nat n)%N.
  { apply N.Div0.div_lt_upper_bound. nia. }
  lia.
Qed.


Lemma divide_mod (a b c : N) : (a | b)%N -> (a | c)%N -> (a | b mod c)%N.
Proof.
  intros Hb Hc. rewrite N.Div0.mod_eq.
  apply N.divide_sub_r; [exact Hb|]. apply N.divide_mul_l, Hc.
Qed.

Lemma pow2_divide (j k : nat) :
  j <= k -> (2 ^ N.of_nat j | 2 ^ N.of_nat k)%N.
Proof.
  intros Hjk. exists (2 ^ N.of_nat (k - j))%N.
  rewrite <- N.pow_add_r. f_equal. lia.
Qed.

Lemma small_multiple_zero (j k : nat) (num : N) :
  k <= j -> (2 ^ N.of_nat j | num)%N -> (num < 2 ^ N.of_nat k)%N -> num = 0%N.
Proof.
  intros Hkj [q Hq] Hlt.
  destruct (N.eq_dec q 0%N) as [->|Hq0]; [lia|].
  assert (2 ^ N.of_nat k <= 2 ^ N.of_nat j)%N by (apply N.pow_le_mono_r; lia).
  nia.
Qed.

Lemma fraction_digits_zero (fuel : nat) (den : N) :
  JS.fraction_digits fuel 0 den = "".
Proof. destruct fuel; reflexivity. Qed.

Lemma fraction_digits_more (k fuel extra j : nat) (num : N) :
  k <= j + fuel ->
  (2 ^ N.of_nat j | num)%N ->
  (num < 2 ^ N.of_nat k)%N ->
  JS.fraction_digits (fuel + extra) num (2 ^ N.of_nat k)
  = JS.fraction_digits fuel num (2 ^ N.of_nat k).
Proof.
  revert j num. induction fuel as [|fuel IH]; intros j num Hk Hdiv Hlt.
  - rewrite (small_multiple_zero j k num) by (assumption || lia).
    rewrite !fraction_digits_zero. reflexivity.
  - cbn [Nat.add JS.fraction_digits].
    destruct (num =? 0)%N eqn:Hzero; [reflexivity|].
    apply N.eqb_neq in Hzero.
    assert (Hj : j < k).
    { destruct (le_lt_dec k j) as [Hle|Hjk]; [|exact Hjk].
      exfalso. apply Hzero. exact (small_multiple_zero j k num Hle Hdiv Hlt). }
    f_equal. apply (IH (S j)).
    + lia.
    + apply divide_mod; [|apply pow2_divide; lia].
      destruct Hdiv as [q ->]. exists (18 * q)%N.
      replace (N.of_nat (S j)) with (N.succ (N.of_nat j)) by lia.
      rewrite N.pow_succ_r'. lia.
    + apply N.mod_lt. apply N.pow_nonzero. discriminate.
Qed.

Lemma toString36_rounds (r : JS.unit_double) (extra : nat) :
  JS.fraction_digits (length r + extra) (JS.numerator r) (JS.denominator r)
  = JS.fraction_digits (length r) (JS.numerator r) (JS.denominator r).
Proof.
  apply (fraction_digits_more (length r) (length r) extra 0).
  - lia.
  - apply N.divide_1_l.
  - apply numerator_lt_denominator.
Qed.

Lemma charAt_length (s : string) (i : nat) :
  i < String.length s -> String.length (JS.charAt s i) = 1.
Proof.
  revert i. induction s as [|c s IH]; intros i Hi; simpl in Hi; [lia|].
  destruct i as [|i]; [reflexivity|]. simpl. apply IH. lia.
Qed.

Lemma string_length_app (s t : string) :
  String.length (s ++ t) = String.length s + String.length t.
Proof. induction s as [|c s IH]; simpl; [reflexivity|]. rewrite IH. reflexivity. Qed.


Lemma generateSecret_length (rand : draws) :
  String.length (generateSecret rand) = 32.
Proof.
  unfold generateSecret.
  assert (Hfold : forall (l : list nat) (acc : string),
             String.length
               (fold_left
                  (fun result i =>
                     result ++ JS.charAt secret_chars
                                 (JS.floor_mul (rand i) (String.length secret_chars)))
                  l acc)
             = String.length acc + length l).
  { induction l as [|i l IH]; intros acc; cbn [fold_left]; [simpl; lia|].
    rewrite IH, string_length_app, charAt_length; [simpl; lia|].
    apply floor_mul_lt. simpl. lia. }
  rewrite Hfold. reflexivity.
Qed.

(** ** Backup codes *)

Lemma generateBackupCodes_map (rand : draws) :
  generateBackupCodes rand = map (fun i => backup_code (rand i)) (seq 0 8).
Proof. reflexivity. Qed.

Lemma generateBackupCodes_length (rand : draws) :
  length (generateBackupCodes rand) = 8.
Proof. reflexivity. Qed.

Lemma backup_code_chars (r : JS.unit_double) :
  JS.all_chars code_char (backup_code r) = true.
Proof.
  unfold backup_code, JS.toString36.
  destruct (JS.numerator r =? 0)%N; [reflexivity|].
  apply toUpperCase_code_chars.
  destruct (js_substring_skip2 "0" "."
              (JS.fraction_digits (length r) (JS.numerator r) (JS.denominator r)))
    as [m Hm].
  change ("0." ++ ?s) with (String "0" (String "." s)).
  rewrite Hm. apply all_chars_substring, fraction_digits_radix.
Qed.

Lemma backup_code_length (r : JS.unit_double) :
  String.length (backup_code r) <= 8.
Proof.
  unfold backup_code. rewrite toUpperCase_length.
  apply (js_substring_length _ 2 10). lia.
Qed.

(** C10.  Whatever [Math.random()] returns, every backup code is a string
    over [0-9] and [A-Z] of at most 8 characters; and 8 characters are not
    guaranteed: some draws give a shorter code. *)
Theorem backup_codes_alphabet_and_length :
  (forall (rand : draws) (code : string),
      In code (generateBackupCodes rand) ->
      JS.all_chars code_char code = true /\ String.length code <= 8)
  /\ (exists (rand : draws) (code : string),
        In code (generateBackupCodes rand) /\ String.length code < 8).
Proof.
  split.
  - intros rand code Hin. rewrite generateBackupCodes_map in Hin.
    apply in_map_iff in Hin as (i & <- & _).
    split; [apply backup_code_chars | apply backup_code_length].
  - exists (fun _ => [true]), "I". split.
    + left. reflexivity.
    + simpl. lia.
Qed.

(** ** The handlers, case by case *)

Lemma code_rejected_six_digits (code : string) :
  code_rejected code = negb (six_digits code).
Proof.
  unfold code_rejected, six_digits, JS.test_digits.
  destruct code as [|c code]; [reflexivity|].
  rewrite negb_andb. reflexivity.
Qed.

Lemma six_digits_nonempty (code : string) : six_digits code = true -> code <> "".
Proof. intros H ->. discriminate H. Qed.

(** A submission that passes the test, with the update resolving. *)
Lemma verifyAndEnable_accepted (rand : draws) (w : world) (u : account) :
  user w = Some u ->
  six_digits (verificationCode (ui w)) = true ->
  verifyAndEnable rand Resolved w =
    World (Some u)
      (setVerificationCode ""
         (setShowSetup false
            (setBackupCodes (generateBackupCodes rand) (setIsEnabled true (ui w)))))
      (Table.update_enabled (user_id u) (generateBackupCodes rand) (user_2fa w))
      (toasts w ++ [toast_enabled]) (console w).
Proof.
  intros Hu Hcode. unfold verifyAndEnable. rewrite Hu.
  destruct (decide (verificationCode (ui w) = "")) as [Hempty|_].
  - exfalso. exact (six_digits_nonempty _ Hcode Hempty).
  - rewrite code_rejected_six_digits, Hcode. simpl.
    unfold show_toast, render, write. simpl. rewrite Hu. reflexivity.
Qed.

(** A submission that fails the test: nothing but the toast. *)
Lemma verifyAndEnable_rejected (rand : draws) (resp : response) (w : world) (u : account) :
  user w = Some u ->
  verificationCode (ui w) <> "" ->
  six_digits (verificationCode (ui w)) = false ->
  verifyAndEnable rand resp w = show_toast toast_invalid_code w.
Proof.
  intros Hu Hne Hcode. unfold verifyAndEnable. rewrite Hu.
  destruct (decide (verificationCode (ui w) = "")) as [Hempty|_]; [contradiction|].
  rewrite code_rejected_six_digits, Hcode. reflexivity.
Qed.

(** A submission that passes the test, with the update not resolving. *)
Lemma verifyAndEnable_unavailable (rand : draws) (resp : response) (w : world) (u : account) :
  user w = Some u ->
  six_digits (verificationCode (ui w)) = true ->
  resp <> Resolved ->
  exists message,
    verifyAndEnable rand resp w = show_toast (toast_verification_failed message) w.
Proof.
  intros Hu Hcode Hresp. unfold verifyAndEnable. rewrite Hu.
  destruct (decide (verificationCode (ui w) = "")) as [Hempty|_].
  - exfalso. exact (six_digits_nonempty _ Hcode Hempty).
  - rewrite code_rejected_six_digits, Hcode. simpl.
    destruct resp as [|message|message]; [contradiction| |]; exists message; reflexivity.
Qed.

Lemma update_enabled_lookup (uid : string) (codes : list string) (t : table) :
  Table.update_enabled uid codes t !! uid
  = (fun r => Row (secret r) true codes) <$> t !! uid.
Proof. unfold Table.update_enabled. apply lookup_alter_eq. Qed.

Lemma update_enabled_absent (uid : string) (codes : list string) (t : table) :
  t !! uid = None -> Table.update_enabled uid codes t = t.
Proof.
  intros Hnone. apply map_eq. intros k. unfold Table.update_enabled.
  destruct (decide (uid = k)) as [<-|Hne].
  - rewrite lookup_alter_eq, Hnone. reflexivity.
  - apply lookup_alter_ne, Hne.
Qed.

Lemma update_disabled_lookup (uid : string) (t : table) :
  Table.update_disabled uid t !! uid
  = (fun r => Row (secret r) false (backup_codes r)) <$> t !! uid.
Proof. unfold Table.update_disabled. apply lookup_alter_eq. Qed.

Lemma upsert_secret_lookup (uid s : string) (t : table) :
  Table.upsert_secret uid s t !! uid
  = Some (Row (Some s) false (default [] (backup_codes <$> t !! uid))).
Proof.
  unfold Table.upsert_secret.
  destruct (t !! uid) as [r|]; simpl; apply lookup_insert_eq.
Qed.

Lemma upsert_secret_other (uid uid' s : string) (t : table) :
  uid <> uid' -> Table.upsert_secret uid s t !! uid' = t !! uid'.
Proof.
  intros Hne. unfold Table.upsert_secret.
  destruct (t !! uid) as [r|]; apply lookup_insert_ne, Hne.
Qed.

(** ** Confirming an enrollment *)

(** C1, as the code has it.  With the update resolving, [verifyAndEnable]
    turns a pending record into an enabled one exactly when the submitted
    code is a string of six decimal digits, whatever the stored secret (the
    handler takes no time and derives no code); any other non-empty string
    is reported as ["Verification failed"] and the record stays pending. *)
Theorem verify_succeeds_iff_six_digits
    (rand : draws) (w : world) (u : account) (r : row) :
  user w = Some u ->
  user_2fa w !! user_id u = Some r ->
  spec_state (Some r) = PendingVerification ->
  verificationCode (ui w) <> "" ->
  let w' := verifyAndEnable rand Resolved w in
  (six_digits (verificationCode (ui w)) = true ->
     spec_state (user_2fa w' !! user_id u) = Enabled
     /\ isEnabled (ui w') = true
     /\ toasts w' = (toasts w ++ [toast_enabled])%list)
  /\ (six_digits (verificationCode (ui w)) = false ->
        spec_state (user_2fa w' !! user_id u) = PendingVerification
        /\ user_2fa w' = user_2fa w
        /\ toasts w' = (toasts w ++ [toast_invalid_code])%list).
Proof.
  intros Hu Hr Hpending Hne w'. subst w'. split; intros Hcode.
  - rewrite (verifyAndEnable_accepted rand w u Hu Hcode). simpl.
    rewrite update_enabled_lookup, Hr. simpl.
    unfold spec_state in Hpending |- *. simpl.
    destruct (secret r); [auto | discriminate Hpending].
  - rewrite (verifyAndEnable_rejected rand Resolved w u Hu Hne Hcode). simpl.
    rewrite Hr. auto.
Qed.

Lemma verify_succeeds_iff_six_digits_witness :
  user (submit "123456" (pending_world sample_secret)) = Some alice
  /\ spec_state (user_2fa (confirm sample_secret "123456") !! "u1") = Enabled
  /\ spec_state (user_2fa (confirm sample_secret "12345x") !! "u1")
     = PendingVerification.
Proof.
  split; [reflexivity|]. split.
  - apply (verify_succeeds_iff_six_digits coin
             (submit "123456" (pending_world sample_secret)) alice
             (Row (Some sample_secret) false []));
      first [reflexivity | discriminate].
  - apply (verify_succeeds_iff_six_digits coin
             (submit "12345x" (pending_world sample_secret)) alice
             (Row (Some sample_secret) false []));
      first [reflexivity | discriminate].
Defined.

(** C1, as stated, fails: two different codes are both accepted for the same
    secret, so acceptance is not equality with a code derived from the
    secret and the time step, whatever the derivation. *)
Lemma verify_accepts_codes_unrelated_to_secret :
  spec_state (user_2fa (confirm sample_secret "000000") !! "u1") = Enabled
  /\ spec_state (user_2fa (confirm sample_secret "111111") !! "u1") = Enabled
  /\ ~ (exists totp : string -> N -> string,
          forall (s code : string) (now : N),
            spec_state (user_2fa (confirm s code) !! "u1") = Enabled
            <-> code = totp s (now / 30)%N).
Proof.
  split; [reflexivity|]. split; [reflexivity|].
  intros [totp Hclaim].
  assert (H0 : "000000" = totp sample_secret (0 / 30)%N)
    by (apply Hclaim; reflexivity).
  assert (H1 : "111111" = totp sample_secret (0 / 30)%N)
    by (apply Hclaim; reflexivity).
  rewrite <- H0 in H1. discriminate H1.
Qed.

(** ** Reading the status *)

(** C2, as the code has it.  [checkTwoFactorStatus] reads one boolean: the
    flag it sets is the [is_enabled] column of the user's record, [false]
    without a record.  After [enableTwoFactor] has stored the secret the
    record is pending and the check reports "not enabled". *)
Theorem check_status_reads_flag
    (rand : draws) (w : world) (u : account) :
  user w = Some u ->
  isEnabled (ui (checkTwoFactorStatus Resolved w))
    = protected (user_2fa w !! user_id u)
  /\ (let w1 := enableTwoFactor rand Resolved w in
      spec_state (user_2fa w1 !! user_id u) = PendingVerification
      /\ isEnabled (ui (checkTwoFactorStatus Resolved w1)) = false).
Proof.
  intros Hu. split.
  - unfold checkTwoFactorStatus. rewrite Hu. simpl.
    unfold Table.select_is_enabled. destruct (user_2fa w !! user_id u); reflexivity.
  - unfold enableTwoFactor. rewrite Hu. simpl.
    unfold checkTwoFactorStatus. simpl. rewrite Hu. simpl.
    unfold Table.select_is_enabled.
    rewrite upsert_secret_lookup. auto.
Qed.

Lemma check_status_reads_flag_witness :
  user (start (Some alice)) = Some alice
  /\ isEnabled
       (ui (checkTwoFactorStatus Resolved
              (enableTwoFactor coin Resolved (start (Some alice))))) = false.
Proof.
  split; [reflexivity|].
  apply (check_status_reads_flag coin (start (Some alice)) alice). reflexivity.
Defined.

(** C2, as stated, fails: the check yields the same component for a table
    without a record ([Disabled]) and for the table [enableTwoFactor] leaves
    ([PendingVerification]); no reading of its result tells the two apart. *)
Lemma check_status_cannot_tell_pending :
  let t := user_2fa (enableTwoFactor coin Resolved (start (Some alice))) in
  spec_state (t !! "u1") = PendingVerification
  /\ spec_state ((∅ : table) !! "u1") = Disabled
  /\ checked_status alice Resolved t = checked_status alice Resolved ∅
  /\ ~ (exists decode : component -> State,
          forall t' : table,
            decode (checked_status alice Resolved t') = spec_state (t' !! "u1")).
Proof.
  intros t. split; [reflexivity|]. split; [reflexivity|].
  assert (Hsame : checked_status alice Resolved t = checked_status alice Resolved ∅)
    by reflexivity.
  split; [exact Hsame|].
  intros [decode Hclaim].
  pose proof (Hclaim t) as Ht. pose proof (Hclaim ∅) as He.
  rewrite Hsame, He in Ht. discriminate Ht.
Qed.

(** ** Confirming from other states *)

(** C3, as the code has it.  [verifyAndEnable] looks at no persisted state.
    Where a record exists, in whatever state, a six-digit code with the
    update resolving is reported as success and the record becomes enabled
    with fresh backup codes and the secret it had; where no record exists
    the table is left as it was. *)
Theorem verify_checks_no_state (rand : draws) (w : world) (u : account) :
  user w = Some u ->
  six_digits (verificationCode (ui w)) = true ->
  let w' := verifyAndEnable rand Resolved w in
  (forall r, user_2fa w !! user_id u = Some r ->
     user_2fa w' !! user_id u
       = Some (Row (secret r) true (generateBackupCodes rand))
     /\ toasts w' = (toasts w ++ [toast_enabled])%list)
  /\ (user_2fa w !! user_id u = None -> user_2fa w' = user_2fa w).
Proof.
  intros Hu Hcode w'. subst w'.
  rewrite (verifyAndEnable_accepted rand w u Hu Hcode). simpl. split.
  - intros r Hr. rewrite update_enabled_lookup, Hr. auto.
  - apply update_enabled_absent.
Qed.

Lemma verify_checks_no_state_witness :
  user (submit "123456" enabled_world) = Some alice
  /\ six_digits (verificationCode (ui (submit "123456" enabled_world))) = true
  /\ user_2fa (verifyAndEnable coin Resolved (submit "123456" enabled_world)) !! "u1"
     = Some (Row (Some sample_secret) true (generateBackupCodes coin)).
Proof.
  split; [reflexivity|]. split; [reflexivity|].
  refine (proj1
            (proj1
               (verify_checks_no_state coin (submit "123456" enabled_world) alice
                  eq_refl eq_refl)
               (Row (Some sample_secret) true old_codes) _)).
  reflexivity.
Defined.

(** C3, as stated, fails: on a record that is already [Enabled] the call is
    reported as success, not as an invalid state, and it replaces the
    persisted backup codes. *)
Lemma verify_from_enabled_rewrites_record :
  let w := submit "123456" enabled_world in
  let w' := verifyAndEnable coin Resolved w in
  spec_state (user_2fa w !! "u1") = Enabled
  /\ toasts w' = [toast_enabled]
  /\ user_2fa w !! "u1" = Some (Row (Some sample_secret) true old_codes)
  /\ user_2fa w' !! "u1"
     = Some (Row (Some sample_secret) true
               ["H5MI"; "UNMI"; "H5MI"; "UNMI"; "H5MI"; "UNMI"; "H5MI"; "UNMI"])
  /\ user_2fa w' <> user_2fa w.
Proof.
  intros w w'. repeat split; try reflexivity.
  intros Heq. apply (f_equal (fun t : table => t !! "u1")) in Heq.
  vm_compute in Heq. discriminate Heq.
Qed.

(** ** Starting an enrollment *)

(** C4, as the code has it.  [enableTwoFactor] looks at no persisted state
    and always writes [is_enabled: false].  A user whose record was not
    enabled (no record, pending, or disabled) is as unprotected after the
    call as before; when the upsert does not resolve the table is left as it
    was; records of other users are never touched. *)
Theorem enable_keeps_unprotected
    (rand : draws) (resp : response) (w : world) (u : account) :
  user w = Some u ->
  protected (user_2fa w !! user_id u) = false ->
  let w' := enableTwoFactor rand resp w in
  protected (user_2fa w' !! user_id u) = false
  /\ (resp = Resolved ->
        user_2fa w' !! user_id u
          = Some (Row (Some (generateSecret rand)) false
                    (default [] (backup_codes <$> user_2fa w !! user_id u))))
  /\ (resp <> Resolved -> user_2fa w' = user_2fa w)
  /\ (forall uid, uid <> user_id u -> user_2fa w' !! uid = user_2fa w !! uid).
Proof.
  intros Hu Hprot w'. subst w'. unfold enableTwoFactor. rewrite Hu.
  destruct resp as [|message|message]; simpl.
  - rewrite upsert_secret_lookup. repeat split; try reflexivity.
    + intros Hne. contradiction.
    + intros uid Hne. apply upsert_secret_other. congruence.
  - repeat split; try reflexivity; try assumption. intros H. discriminate H.
  - repeat split; try reflexivity; try assumption. intros H. discriminate H.
Qed.

Lemma enable_keeps_unprotected_witness :
  user (start (Some alice)) = Some alice
  /\ protected (user_2fa (start (Some alice)) !! "u1") = false
  /\ protected
       (user_2fa (enableTwoFactor coin Resolved (start (Some alice))) !! "u1")
     = false.
Proof.
  split; [reflexivity|]. split; [reflexivity|].
  apply (enable_keeps_unprotected coin Resolved (start (Some alice)) alice);
    reflexivity.
Defined.

(** C4, as stated, fails on an enabled record: the call runs, and the
    protection that was active is gone afterwards.  The component offers
    the button in that situation once a status read has failed. *)
Lemma enable_drops_active_protection :
  let w0 := World (Some alice) mounted enabled_table [] [] in
  let w1 := checkTwoFactorStatus (Failed "Failed to fetch") w0 in
  let w2 := enableTwoFactor coin Resolved w1 in
  spec_state (user_2fa w1 !! "u1") = Enabled
  /\ offers_enable (ui w1) = true
  /\ protected (user_2fa w1 !! "u1") = true
  /\ protected (user_2fa w2 !! "u1") = false
  /\ protected
       (user_2fa (enableTwoFactor coin Resolved enabled_world) !! "u1")
     <> protected (user_2fa enabled_world !! "u1").
Proof.
  intros w0 w1 w2. repeat split; try reflexivity.
  vm_compute. discriminate.
Qed.

(** ** Disabling *)

(** C5, as the code has it.  [disableTwoFactor] on an enabled record
    persists [is_enabled: false] and nothing else: the stored secret and the
    stored backup codes stay in the record; only the copy of the codes the
    component displays is cleared. *)
Theorem disable_keeps_secret_and_codes (w : world) (u : account) (r : row) :
  user w = Some u ->
  user_2fa w !! user_id u = Some r ->
  is_enabled r = true ->
  let w' := disableTwoFactor Resolved w in
  user_2fa w' !! user_id u = Some (Row (secret r) false (backup_codes r))
  /\ protected (user_2fa w' !! user_id u) = false
  /\ isEnabled (ui w') = false
  /\ backupCodes (ui w') = [].
Proof.
  intros Hu Hr _ w'. subst w'. unfold disableTwoFactor. rewrite Hu. simpl.
  rewrite update_disabled_lookup, Hr. simpl. auto.
Qed.

Lemma disable_keeps_secret_and_codes_witness :
  user enabled_world = Some alice
  /\ user_2fa enabled_world !! "u1" = Some (Row (Some sample_secret) true old_codes)
  /\ user_2fa (disableTwoFactor Resolved enabled_world) !! "u1"
     = Some (Row (Some sample_secret) false old_codes).
Proof.
  split; [reflexivity|]. split; [reflexivity|].
  apply (disable_keeps_secret_and_codes enabled_world alice
           (Row (Some sample_secret) true old_codes)); reflexivity.
Defined.

(** C5, as stated, fails: after disabling an enabled record the secret and
    the backup codes are still stored, and the record reads as
    [PendingVerification], not [Disabled]. *)
Lemma disable_leaves_secret_stored :
  let t := user_2fa (disableTwoFactor Resolved enabled_world) in
  spec_state (enabled_table !! "u1") = Enabled
  /\ t !! "u1" = Some (Row (Some sample_secret) false old_codes)
  /\ spec_state (t !! "u1") = PendingVerification
  /\ spec_state (t !! "u1") <> Disabled.
Proof.
  intros t. repeat split; try reflexivity. vm_compute. discriminate.
Qed.

(** ** The record invariant *)

Lemma table_sound_invariant (t : table) : table_sound t -> table_invariant t.
Proof.
  intros Hsound uid r Hr Hen. destruct (Hsound uid r Hr) as [Hsec Hcodes].
  split; [exact Hsec | exact (Hcodes Hen)].
Qed.

Lemma table_sound_empty : table_sound ∅.
Proof. intros uid r Hr. rewrite lookup_empty in Hr. discriminate Hr. Qed.

Lemma table_sound_upsert (uid s : string) (t : table) :
  table_sound t -> table_sound (Table.upsert_secret uid s t).
Proof.
  intros Hsound k r Hr. destruct (decide (uid = k)) as [<-|Hne].
  - rewrite upsert_secret_lookup in Hr. injection Hr as <-. simpl.
    split; [discriminate | intros H; discriminate H].
  - rewrite (upsert_secret_other uid k s t Hne) in Hr. exact (Hsound k r Hr).
Qed.

Lemma table_sound_alter (f : row -> row) (uid : string) (t : table) :
  (forall r, secret r <> None ->
             secret (f r) <> None
             /\ (is_enabled (f r) = true -> backup_codes (f r) <> [])) ->
  table_sound t -> table_sound (alter f uid t).
Proof.
  intros Hf Hsound k r Hr. destruct (decide (uid = k)) as [<-|Hne].
  - rewrite lookup_alter_eq in Hr.
    destruct (t !! uid) as [r0|] eqn:Hr0; [|discriminate Hr].
    injection Hr as <-. apply Hf. exact (proj1 (Hsound uid r0 Hr0)).
  - rewrite (lookup_alter_ne f t uid k Hne) in Hr.
    exact (Hsound k r Hr).
Qed.

Lemma generateBackupCodes_nonempty (rand : draws) : generateBackupCodes rand <> [].
Proof. rewrite generateBackupCodes_map. discriminate. Qed.

Lemma table_sound_update_enabled (uid : string) (rand : draws) (t : table) :
  table_sound t ->
  table_sound (Table.update_enabled uid (generateBackupCodes rand) t).
Proof.
  apply table_sound_alter. intros r Hsec. simpl. split; [exact Hsec|].
  intros _. apply generateBackupCodes_nonempty.
Qed.

Lemma table_sound_update_disabled (uid : string) (t : table) :
  table_sound t -> table_sound (Table.update_disabled uid t).
Proof.
  apply table_sound_alter. intros r Hsec. simpl. split; [exact Hsec|].
  intros H. discriminate H.
Qed.

Lemma checkTwoFactorStatus_table (resp : response) (w : world) :
  user_2fa (checkTwoFactorStatus resp w) = user_2fa w.
Proof.
  unfold checkTwoFactorStatus. destruct (user w); [|reflexivity].
  destruct resp; reflexivity.
Qed.

Lemma step_table_sound (w : world) (e : event) :
  table_sound (user_2fa w) -> table_sound (user_2fa (step w e)).
Proof.
  intros Hsound. destruct e as [u|resp|rand resp|value|rand resp| |resp]; simpl.
  - exact Hsound.
  - rewrite checkTwoFactorStatus_table. exact Hsound.
  - unfold enableTwoFactor. destruct (user w) as [u|]; [|exact Hsound].
    destruct resp; simpl; [apply table_sound_upsert| |]; exact Hsound.
  - exact Hsound.
  - unfold verifyAndEnable. destruct (user w) as [u|]; [|exact Hsound].
    destruct (decide (verificationCode (ui w) = "")); [exact Hsound|].
    destruct (code_rejected (verificationCode (ui w))); [exact Hsound|].
    destruct resp; simpl; [apply table_sound_update_enabled| |]; exact Hsound.
  - exact Hsound.
  - unfold disableTwoFactor. destruct (user w) as [u|]; [|exact Hsound].
    destruct resp; simpl; [apply table_sound_update_disabled| |]; exact Hsound.
Qed.

Lemma run_table_sound (es : list event) (w : world) :
  table_sound (user_2fa w) -> table_sound (user_2fa (run w es)).
Proof.
  revert w. induction es as [|e es IH]; intros w Hsound; [exact Hsound|].
  apply (IH (step w e)), step_table_sound, Hsound.
Qed.

Lemma reachable_table_sound (w : world) : reachable w -> table_sound (user_2fa w).
Proof.
  intros (u & es & ->). apply run_table_sound, table_sound_empty.
Qed.

(** C6.  In every state the component reaches from an empty table, through
    any sequence of its operations with any backend responses and random
    draws, each operation preserves the record invariant: it holds of every
    record before the operation and of every record after it. *)
Theorem lifecycle_preserves_record_invariant (w : world) (e : event) :
  reachable w ->
  table_invariant (user_2fa w) /\ table_invariant (user_2fa (step w e)).
Proof.
  intros Hreach. pose proof (reachable_table_sound w Hreach) as Hsound.
  split; apply table_sound_invariant; [exact Hsound|].
  apply step_table_sound, Hsound.
Qed.

Lemma lifecycle_preserves_record_invariant_witness :
  let w := run (start (Some alice)) [Enable coin Resolved; TypeCode "123456"] in
  reachable w
  /\ user_2fa (step w (Verify coin Resolved)) !! "u1"
     = Some (Row (Some (generateSecret coin)) true (generateBackupCodes coin))
  /\ table_invariant (user_2fa (step w (Verify coin Resolved))).
Proof.
  intros w.
  assert (Hreach : reachable w) by (exists (Some alice); eexists; reflexivity).
  split; [exact Hreach|]. split; [reflexivity|].
  exact (proj2 (lifecycle_preserves_record_invariant w (Verify coin Resolved) Hreach)).
Defined.

(** ** Backup codes of a confirmation *)

(** C7, as the code has it.  A successful [verifyAndEnable] generates
    exactly 8 backup codes, hands them to the component for display and,
    where the user's record exists, stores the same 8 codes in it.  Nothing
    makes the codes distinct. *)
Theorem verify_returns_eight_codes (rand : draws) (w : world) (u : account) :
  user w = Some u ->
  six_digits (verificationCode (ui w)) = true ->
  let w' := verifyAndEnable rand Resolved w in
  length (backupCodes (ui w')) = 8
  /\ backupCodes (ui w') = generateBackupCodes rand
  /\ (forall r, user_2fa w !! user_id u = Some r ->
        backup_codes <$> user_2fa w' !! user_id u = Some (backupCodes (ui w'))).
Proof.
  intros Hu Hcode w'. subst w'.
  rewrite (verifyAndEnable_accepted rand w u Hu Hcode). simpl.
  split; [reflexivity|]. split; [reflexivity|].
  intros r Hr. rewrite update_enabled_lookup, Hr. reflexivity.
Qed.

Lemma verify_returns_eight_codes_witness :
  user (submit "123456" (pending_world sample_secret)) = Some alice
  /\ six_digits "123456" = true
  /\ length (backupCodes (ui (confirm sample_secret "123456"))) = 8.
Proof.
  split; [reflexivity|]. split; [reflexivity|].
  apply (verify_returns_eight_codes coin
           (submit "123456" (pending_world sample_secret)) alice); reflexivity.
Defined.

(** C7, as stated, fails: two different values of [Math.random()] that agree
    on their first eight radix-36 digits give the same code twice in one
    successful confirmation. *)
Lemma verify_can_return_equal_codes :
  let w := submit "123456" (pending_world sample_secret) in
  let w' := verifyAndEnable close_draws Resolved w in
  close_draws 0 <> close_draws 1
  /\ toasts w' = [toast_enabled]
  /\ backupCodes (ui w')
     = ["I0000000"; "I0000000"; "H5MI"; "UNMI"; "H5MI"; "UNMI"; "H5MI"; "UNMI"]
  /\ ~ NoDup (backupCodes (ui w')).
Proof.
  intros w w'.
  assert (Hcodes : backupCodes (ui w')
            = ["I0000000"; "I0000000"; "H5MI"; "UNMI"; "H5MI"; "UNMI"; "H5MI"; "UNMI"])
    by (vm_compute; reflexivity).
  split; [vm_compute; discriminate|]. split; [reflexivity|].
  split; [exact Hcodes|].
  rewrite Hcodes. intros Hnodup.
  apply NoDup_cons_1_1 in Hnodup. apply Hnodup. left.
Qed.

(** ** Failed verification *)

(** C8.  Whenever [verifyAndEnable] fails verification (the submitted code
    does not pass the test, or the update does not resolve), the table is
    exactly as before the call, so a pending record stays pending, and the
    component's cells are untouched; and the failure is reported as
    ["Verification failed"].  (Without any code in the input the handler
    returns before it verifies anything: nothing changes and nothing is
    reported.) *)
Theorem failed_verification_changes_nothing
    (rand : draws) (resp : response) (w : world) (u : account) :
  user w = Some u ->
  six_digits (verificationCode (ui w)) = false \/ resp <> Resolved ->
  let w' := verifyAndEnable rand resp w in
  user_2fa w' = user_2fa w
  /\ (spec_state (user_2fa w !! user_id u) = PendingVerification ->
      spec_state (user_2fa w' !! user_id u) = PendingVerification)
  /\ ui w' = ui w
  /\ (verificationCode (ui w) <> "" ->
      exists message,
        toasts w' = (toasts w ++ [toast_verification_failed message])%list).
Proof.
  intros Hu Hfail w'. subst w'.
  destruct (decide (verificationCode (ui w) = "")) as [Hempty|Hne].
  - assert (Hsame : verifyAndEnable rand resp w = w).
    { unfold verifyAndEnable. rewrite Hu.
      destruct (decide (verificationCode (ui w) = "")); [reflexivity|contradiction]. }
    rewrite Hsame. repeat split; try reflexivity; try (intros H; exact H).
    intros Hne. contradiction.
  - assert (Hshow : exists message,
               verifyAndEnable rand resp w
               = show_toast (toast_verification_failed message) w).
    { destruct (six_digits (verificationCode (ui w))) eqn:Hcode.
      - destruct Hfail as [Hfalse|Hresp]; [discriminate Hfalse|].
        exact (verifyAndEnable_unavailable rand resp w u Hu Hcode Hresp).
      - eexists. exact (verifyAndEnable_rejected rand resp w u Hu Hne Hcode). }
    destruct Hshow as [message ->]. simpl.
    repeat split; try reflexivity; try (intros H; exact H).
    intros _. exists message. reflexivity.
Qed.

Lemma failed_verification_changes_nothing_witness :
  let w := submit "12345x" (pending_world sample_secret) in
  user w = Some alice
  /\ six_digits (verificationCode (ui w)) = false
  /\ user_2fa (verifyAndEnable coin Resolved w) = user_2fa w
  /\ toasts (verifyAndEnable coin Resolved w) = [toast_invalid_code].
Proof.
  intros w. split; [reflexivity|]. split; [reflexivity|]. split.
  - exact (proj1
             (failed_verification_changes_nothing coin Resolved w alice
                eq_refl (or_introl eq_refl))).
  - reflexivity.
Defined.

(** ** A failed status read *)

(** C9, as the code has it.  When the read does not resolve,
    [checkTwoFactorStatus] writes the error to the console, ends the loading
    phase and leaves everything else, the status flag included, as it was
    before the call: no toast, no change of the table. *)
Theorem failed_check_keeps_status (resp : response) (w : world) (u : account) :
  user w = Some u ->
  resp <> Resolved ->
  let w' := checkTwoFactorStatus resp w in
  ui w' = setLoading false (ui w)
  /\ isEnabled (ui w') = isEnabled (ui w)
  /\ toasts w' = toasts w
  /\ user_2fa w' = user_2fa w
  /\ exists message,
       console w' = (console w ++ [("Error checking 2FA status:", message)])%list.
Proof.
  intros Hu Hresp w'. subst w'. unfold checkTwoFactorStatus. rewrite Hu.
  destruct resp as [|message|message]; [contradiction| |]; simpl;
    repeat split; exists message; reflexivity.
Qed.

Lemma failed_check_keeps_status_witness :
  let w := World (Some alice) mounted enabled_table [] [] in
  user w = Some alice
  /\ Failed "Failed to fetch" <> Resolved
  /\ isEnabled (ui (checkTwoFactorStatus (Failed "Failed to fetch") w)) = false.
Proof.
  intros w. split; [reflexivity|]. split; [discriminate|].
  refine (proj1 (proj2
            (failed_check_keeps_status (Failed "Failed to fetch") w alice
               eq_refl _))).
  discriminate.
Defined.

(** C9, as stated, fails: after a failed read of an enabled record a freshly
    mounted component is in the very state a successful read of "no record"
    leaves it in, shows no error, and renders the status as disabled. *)
Lemma failed_check_reads_as_disabled :
  let failed := checkTwoFactorStatus (Failed "Failed to fetch")
                  (World (Some alice) mounted enabled_table [] []) in
  spec_state (enabled_table !! "u1") = Enabled
  /\ ui failed = checked_status alice Resolved ∅
  /\ toasts failed = []
  /\ status_line (ui failed) = "2FA is disabled"
  /\ offers_enable (ui failed) = true.
Proof. intros failed. repeat split; reflexivity. Qed.

(** * Further properties of the component *)

(** ** Secrets *)

Lemma secret_chars_base32 : JS.all_chars base32_char secret_chars = true.
Proof. reflexivity. Qed.

Lemma secret_fold_base32 (rand : draws) (l : list nat) (acc : string) :
  JS.all_chars base32_char acc = true ->
  JS.all_chars base32_char
    (fold_left
       (fun result i =>
          result ++ JS.charAt secret_chars
                      (JS.floor_mul (rand i) (String.length secret_chars)))
       l acc) = true.
Proof.
  revert acc. induction l as [|i l IH]; intros acc Hacc; cbn [fold_left]; [exact Hacc|].
  apply IH. rewrite all_chars_app, Hacc, andb_true_l.
  apply all_chars_charAt, secret_chars_base32.
Qed.

Lemma generateSecret_chars (rand : draws) :
  JS.all_chars base32_char (generateSecret rand) = true.
Proof. unfold generateSecret. apply secret_fold_base32. reflexivity. Qed.

(** X1.  Whatever [Math.random()] returns, [generateSecret] yields exactly
    32 characters, each of them from [A-Z] and [2-7]. *)
Theorem generateSecret_base32 (rand : draws) :
  String.length (generateSecret rand) = 32
  /\ JS.all_chars base32_char (generateSecret rand) = true.
Proof.
  split; [apply generateSecret_length | apply generateSecret_chars].
Qed.

(** ** encodeURIComponent *)

Lemma string_app_assoc (a b c : string) : (a ++ b) ++ c = a ++ (b ++ c).
Proof.
  induction a as [|x a IH]; [reflexivity|].
  change (String x ((a ++ b) ++ c) = String x (a ++ b ++ c)). rewrite IH. reflexivity.
Qed.

Lemma encode_app (s t : string) :
  JS.encodeURIComponent (s ++ t)
  = JS.encodeURIComponent s ++ JS.encodeURIComponent t.
Proof.
  induction s as [|c s IH]; [reflexivity|].
  change (String c s ++ t) with (String c (s ++ t)).
  cbn [JS.encodeURIComponent]. rewrite IH.
  symmetry. apply string_app_assoc.
Qed.

Lemma encode_unreserved (s : string) :
  JS.all_chars JS.uri_unreserved s = true -> JS.encodeURIComponent s = s.
Proof.
  induction s as [|c s IH]; [reflexivity|].
  cbn [JS.all_chars JS.encodeURIComponent]. intros H.
  apply andb_prop in H as [Hc Hs]. rewrite Hc, (IH Hs). reflexivity.
Qed.

Lemma escape_encoded (c : ascii) :
  JS.all_chars encoded_char
    (if JS.uri_unreserved c then String c ""
     else "%" ++ JS.hex_digit (nat_of_ascii c / 16)
              ++ JS.hex_digit (nat_of_ascii c mod 16)) = true.
Proof. destruct c as [[] [] [] [] [] [] [] []]; reflexivity. Qed.

Lemma encode_encoded (s : string) :
  JS.all_chars encoded_char (JS.encodeURIComponent s) = true.
Proof.
  induction s as [|c s IH]; [reflexivity|].
  cbn [JS.encodeURIComponent]. rewrite all_chars_app, IH, escape_encoded. reflexivity.
Qed.

Lemma unescape_escape (c : ascii) (rest : string) :
  unescape
    ((if JS.uri_unreserved c then String c ""
      else "%" ++ JS.hex_digit (nat_of_ascii c / 16)
               ++ JS.hex_digit (nat_of_ascii c mod 16)) ++ rest)
  = String c (unescape rest).
Proof. destruct c as [[] [] [] [] [] [] [] []]; reflexivity. Qed.

Lemma unescape_encode (s : string) : unescape (JS.encodeURIComponent s) = s.
Proof.
  induction s as [|c s IH]; [reflexivity|].
  cbn [JS.encodeURIComponent]. rewrite unescape_escape, IH. reflexivity.
Qed.

Lemma encode_injective (s t : string) :
  JS.encodeURIComponent s = JS.encodeURIComponent t -> s = t.
Proof.
  intros H. rewrite <- (unescape_encode s), <- (unescape_encode t), H. reflexivity.
Qed.

Lemma string_app_inv_head (a x y : string) : a ++ x = a ++ y -> x = y.
Proof.
  induction a as [|c a IH]; simpl; intros H; [exact H|].
  injection H as H. exact (IH H).
Qed.

Lemma string_app_inj_length (a b x y : string) :
  String.length a = String.length b -> a ++ x = b ++ y -> a = b /\ x = y.
Proof.
  revert b. induction a as [|c a IH]; intros [|d b] Hlen H;
    simpl in Hlen; try discriminate Hlen.
  - split; [reflexivity | exact H].
  - simpl in H. injection H as -> H. injection Hlen as Hlen.
    destruct (IH b Hlen H) as [-> ->]. split; reflexivity.
Qed.

(** X2.  For every email and secret, [generateQRCode] yields the fixed
    address of the QR service followed by a [data] value made of unreserved
    characters and percent escapes only: nothing in the email or the secret
    can end the [data] parameter or start another one. *)
Theorem generateQRCode_safe (email secret : string) :
  exists data,
    generateQRCode email secret
    = "https://api.qrserver.com/v1/create-qr-code/?size=200x200&data=" ++ data
    /\ JS.all_chars encoded_char data = true.
Proof.
  eexists. split; [reflexivity|]. apply encode_encoded.
Qed.

(** X3.  [generateQRCode] loses nothing: two calls with secrets of the
    same length that give the same address were made with the same email and
    the same secret. *)
Theorem generateQRCode_injective (email1 secret1 email2 secret2 : string) :
  String.length secret1 = String.length secret2 ->
  generateQRCode email1 secret1 = generateQRCode email2 secret2 ->
  email1 = email2 /\ secret1 = secret2.
Proof.
  intros Hlen H. unfold generateQRCode in H.
  apply string_app_inv_head, encode_injective, string_app_inv_head in H.
  assert (Hlens : String.length email1 = String.length email2).
  { apply (f_equal String.length) in H.
    rewrite !string_length_app in H. simpl in H. lia. }
  destruct (string_app_inj_length _ _ _ _ Hlens H) as [He H1].
  split; [exact He|].
  apply string_app_inv_head in H1.
  exact (proj1 (string_app_inj_length _ _ _ _ Hlen H1)).
Qed.

Lemma generateQRCode_injective_witness :
  String.length sample_secret = String.length sample_secret
  /\ generateQRCode "alice@example.org" sample_secret
     = generateQRCode "alice@example.org" sample_secret
  /\ ("alice@example.org" = "alice@example.org" /\ sample_secret = sample_secret).
Proof.
  split; [reflexivity|]. split; [reflexivity|].
  apply (generateQRCode_injective "alice@example.org" sample_secret
           "alice@example.org" sample_secret); reflexivity.
Defined.

Lemma base32_unreserved (s : string) :
  JS.all_chars base32_char s = true -> JS.all_chars JS.uri_unreserved s = true.
Proof.
  induction s as [|c s IH]; [reflexivity|]. cbn [JS.all_chars]. intros H.
  apply andb_prop in H as [Hc Hs]. rewrite (IH Hs), andb_true_r.
  revert Hc. destruct c as [[] [] [] [] [] [] [] []]; vm_compute; intros Hc;
    first [reflexivity | discriminate Hc].
Qed.

(** X4.  A secret of [generateSecret] needs no escaping: the address
    [generateQRCode] builds for it carries the secret itself, in clear,
    between the escaped [?secret=] and [&issuer=Calmora]. *)
Theorem generateQRCode_shows_secret (email : string) (rand : draws) :
  generateQRCode email (generateSecret rand)
  = "https://api.qrserver.com/v1/create-qr-code/?size=200x200&data="
    ++ "otpauth%3A%2F%2Ftotp%2FCalmora%3A" ++ JS.encodeURIComponent email
    ++ "%3Fsecret%3D" ++ generateSecret rand ++ "%26issuer%3DCalmora".
Proof.
  unfold generateQRCode.
  pose proof (generateSecret_chars rand) as Hchars.
  apply base32_unreserved, encode_unreserved in Hchars.
  rewrite !encode_app, Hchars. reflexivity.
Qed.

(** ** The code input *)

Lemma strip_non_digits_digits (s : string) :
  JS.all_chars JS.is_digit (strip_non_digits s) = true.
Proof.
  induction s as [|c s IH]; [reflexivity|]. cbn [strip_non_digits].
  destruct (JS.is_digit c) eqn:Hc; [|exact IH].
  cbn [JS.all_chars]. rewrite Hc, IH. reflexivity.
Qed.

Lemma strip_non_digits_id (s : string) :
  JS.all_chars JS.is_digit s = true -> strip_non_digits s = s.
Proof.
  induction s as [|c s IH]; [reflexivity|]. cbn [JS.all_chars strip_non_digits].
  intros H. apply andb_prop in H as [Hc Hs]. rewrite Hc, (IH Hs). reflexivity.
Qed.

Lemma substring_all (s : string) (m : nat) :
  String.length s <= m -> String.substring 0 m s = s.
Proof.
  revert m. induction s as [|c s IH]; intros m Hm.
  - destruct m; reflexivity.
  - destruct m as [|m]; simpl in Hm; [lia|]. simpl. rewrite IH by lia. reflexivity.
Qed.

Lemma slice_digits (s : string) (a b : nat) :
  JS.all_chars JS.is_digit s = true ->
  JS.all_chars JS.is_digit (JS.slice s a b) = true.
Proof. intros H. unfold JS.slice. apply all_chars_substring, H. Qed.

Lemma slice_length (s : string) (b : nat) : String.length (JS.slice s 0 b) <= b.
Proof.
  unfold JS.slice. etransitivity; [apply substring_length|]. lia.
Qed.

Lemma slice_short (s : string) (b : nat) :
  String.length s <= b -> JS.slice s 0 b = s.
Proof.
  intros H. unfold JS.slice. rewrite Nat.min_0_l, Nat.sub_0_r.
  apply substring_all. lia.
Qed.

Lemma step_code_cell (w : world) (e : event) :
  code_cell_ok (ui w) -> code_cell_ok (ui (step w e)).
Proof.
  intros Hok. destruct e as [u|resp|rand resp|value|rand resp| |resp]; simpl.
  - exact Hok.
  - unfold checkTwoFactorStatus. destruct (user w); [|exact Hok].
    destruct resp; exact Hok.
  - unfold enableTwoFactor. destruct (user w); [|exact Hok].
    destruct resp; exact Hok.
  - split; simpl.
    + apply slice_digits, strip_non_digits_digits.
    + apply slice_length.
  - unfold verifyAndEnable. destruct (user w); [|exact Hok].
    destruct (decide (verificationCode (ui w) = "")); [exact Hok|].
    destruct (code_rejected (verificationCode (ui w))); [exact Hok|].
    destruct resp; try exact Hok. split; simpl; [reflexivity | lia].
  - exact Hok.
  - unfold disableTwoFactor. destruct (user w); [|exact Hok].
    destruct resp; exact Hok.
Qed.

Lemma run_code_cell (es : list event) (w : world) :
  code_cell_ok (ui w) -> code_cell_ok (ui (run w es)).
Proof.
  revert w. induction es as [|e es IH]; intros w Hok; [exact Hok|].
  apply (IH (step w e)), step_code_cell, Hok.
Qed.

(** X5.  In every run of a mounted component the code input holds decimal
    digits only, six at most; so whenever the verify button is offered, the
    test of [verifyAndEnable] accepts the code. *)
Theorem code_input_holds_digits
    (u : option account) (t : table) (es : list event) :
  let c := ui (run (World u mounted t [] []) es) in
  JS.all_chars JS.is_digit (verificationCode c) = true
  /\ String.length (verificationCode c) <= 6
  /\ (offers_verify c = true -> code_rejected (verificationCode c) = false).
Proof.
  intros c.
  assert (Hok : code_cell_ok c).
  { apply run_code_cell. split; simpl; [reflexivity | lia]. }
  destruct Hok as [Hdigits Hlen]. split; [exact Hdigits|]. split; [exact Hlen|].
  intros Hoffer. unfold offers_verify in Hoffer.
  apply andb_prop in Hoffer as [_ Hsix].
  rewrite code_rejected_six_digits. unfold six_digits.
  rewrite Hsix, Hdigits. reflexivity.
Qed.

Lemma code_input_holds_digits_witness :
  let c := ui (run (World (Some alice) mounted ∅ [] [])
                 [CheckStatus Resolved; Enable coin Resolved;
                  TypeCode "12a34-5678"]) in
  offers_verify c = true /\ code_rejected (verificationCode c) = false.
Proof.
  intros c. split; [reflexivity|].
  apply (proj2 (proj2
           (code_input_holds_digits (Some alice) ∅
              [CheckStatus Resolved; Enable coin Resolved;
               TypeCode "12a34-5678"]))).
  reflexivity.
Defined.

(** X6.  [onChange] is idempotent (entering the content of the input again
    changes nothing), and a text of exactly six digits is stored as it is. *)
Theorem onChange_keeps_entered_code (value : string) (w : world) :
  let w' := onChange value w in
  onChange (verificationCode (ui w')) w' = w'
  /\ (six_digits value = true -> verificationCode (ui w') = value).
Proof.
  intros w'. subst w'. split.
  - unfold onChange. simpl.
    rewrite strip_non_digits_id
      by (apply slice_digits, strip_non_digits_digits).
    rewrite (slice_short (JS.slice _ 0 6)) by apply slice_length.
    reflexivity.
  - intros Hsix. unfold six_digits in Hsix.
    apply andb_prop in Hsix as [Hlen Hdigits].
    apply Nat.eqb_eq in Hlen. simpl.
    rewrite (strip_non_digits_id value Hdigits).
    apply slice_short. lia.
Qed.

Lemma onChange_keeps_entered_code_witness :
  six_digits "123456" = true
  /\ verificationCode (ui (onChange "123456" (start None))) = "123456".
Proof.
  split; [reflexivity|].
  apply (proj2 (onChange_keeps_entered_code "123456" (start None))).
  reflexivity.
Defined.

(** ** Without a session *)




(** ** Rows of other users *)

Lemma alter_other (f : row -> row) (uid k : string) (t : table) :
  uid <> k -> alter f uid t !! k = t !! k.
Proof. intros Hne. apply lookup_alter_ne, Hne. Qed.

(** X8.  A step never changes the row of a user other than the one signed
    in: every write is keyed by the id of the session's user. *)
Theorem step_touches_own_row_only (w : world) (e : event) (uid : string) :
  (forall u, user w = Some u -> user_id u <> uid) ->
  user_2fa (step w e) !! uid = user_2fa w !! uid.
Proof.
  intros Hother.
  destruct e as [u|resp|rand resp|value|rand resp| |resp]; simpl; try reflexivity.
  - rewrite checkTwoFactorStatus_table. reflexivity.
  - unfold enableTwoFactor. destruct (user w) as [u|] eqn:Hu; [|reflexivity].
    destruct resp; simpl; try reflexivity.
    apply upsert_secret_other, (Hother u eq_refl).
  - unfold verifyAndEnable. destruct (user w) as [u|] eqn:Hu; [|reflexivity].
    destruct (decide (verificationCode (ui w) = "")); [reflexivity|].
    destruct (code_rejected (verificationCode (ui w))); [reflexivity|].
    destruct resp; simpl; try reflexivity.
    apply alter_other, (Hother u eq_refl).
  - unfold disableTwoFactor. destruct (user w) as [u|] eqn:Hu; [|reflexivity].
    destruct resp; simpl; try reflexivity.
    apply alter_other, (Hother u eq_refl).
Qed.

Lemma step_touches_own_row_only_witness :
  (forall u, user enabled_world = Some u -> user_id u <> "u2")
  /\ user_2fa (step enabled_world (Enable coin Resolved)) !! "u2"
     = user_2fa enabled_world !! "u2".
Proof.
  assert (Hother : forall u, user enabled_world = Some u -> user_id u <> "u2").
  { intros u Hu. injection Hu as <-. discriminate. }
  split; [exact Hother|].
  exact (step_touches_own_row_only enabled_world (Enable coin Resolved) "u2" Hother).
Defined.

(** X9.  Only an enrollment whose upsert resolves writes a secret or
    creates a row: every other step leaves the secret of every row and the
    set of rows as they were (no handler deletes a row). *)
Theorem secret_written_by_enable_only (w : world) (e : event) (uid : string) :
  is_resolved_enable e = false ->
  secret <$> user_2fa (step w e) !! uid = secret <$> user_2fa w !! uid
  /\ (is_Some (user_2fa (step w e) !! uid) <-> is_Some (user_2fa w !! uid)).
Proof.
  intros He.
  assert (Halter : forall (f : row -> row) (k : string) (t : table),
             (forall r, secret (f r) = secret r) ->
             secret <$> alter f k t !! uid = secret <$> t !! uid
             /\ (is_Some (alter f k t !! uid) <-> is_Some (t !! uid))).
  { intros f k t Hf. destruct (decide (k = uid)) as [->|Hne].
    - rewrite lookup_alter_eq. destruct (t !! uid) as [r|]; simpl.
      + rewrite Hf. split; [reflexivity|]. split; intros _; eexists; reflexivity.
      + split; [reflexivity|]. reflexivity.
    - rewrite (lookup_alter_ne f t k uid Hne). split; reflexivity. }
  destruct e as [u|resp|rand resp|value|rand resp| |resp]; simpl;
    try (split; reflexivity).
  - rewrite checkTwoFactorStatus_table. split; reflexivity.
  - unfold enableTwoFactor. destruct (user w) as [u|]; [|split; reflexivity].
    destruct resp; simpl; try (split; reflexivity). discriminate He.
  - unfold verifyAndEnable. destruct (user w) as [u|]; [|split; reflexivity].
    destruct (decide (verificationCode (ui w) = "")); [split; reflexivity|].
    destruct (code_rejected (verificationCode (ui w))); [split; reflexivity|].
    destruct resp; simpl; try (split; reflexivity).
    apply Halter. reflexivity.
  - unfold disableTwoFactor. destruct (user w) as [u|]; [|split; reflexivity].
    destruct resp; simpl; try (split; reflexivity).
    apply Halter. reflexivity.
Qed.

Lemma secret_written_by_enable_only_witness :
  let w := submit "123456" enabled_world in
  is_resolved_enable (Verify coin Resolved) = false
  /\ secret <$> user_2fa (step w (Verify coin Resolved)) !! "u1"
     = secret <$> user_2fa w !! "u1".
Proof.
  intros w. split; [reflexivity|].
  exact (proj1 (secret_written_by_enable_only w (Verify coin Resolved) "u1" eq_refl)).
Defined.

Lemma slice_six (s : string) :
  6 <= String.length s -> String.length (JS.slice s 0 6) = 6.
Proof.
  intros H. unfold JS.slice.
  rewrite Nat.min_0_l, Nat.sub_0_r, (Nat.min_l 6) by lia.
  revert H. generalize 6 as m. revert s.
  induction s as [|c s IH]; intros m Hm; simpl in Hm.
  - assert (m = 0) by lia. subst m. reflexivity.
  - destruct m as [|m]; [reflexivity|]. simpl. rewrite IH by lia. reflexivity.
Qed.

Lemma typed_code_six_digits (value : string) :
  6 <= String.length (strip_non_digits value) ->
  six_digits (JS.slice (strip_non_digits value) 0 6) = true.
Proof.
  intros H. unfold six_digits.
  rewrite (slice_six _ H), slice_digits by apply strip_non_digits_digits.
  reflexivity.
Qed.

(** X10.  Enrollment end to end: for a signed-in user, starting the setup,
    typing a text with at least six digits and confirming (both backend
    calls resolving) leaves the user's row enabled with the secret of the
    setup and the codes of the confirmation; the component shows the codes,
    has closed the setup and cleared the input, and a status check then
    reports enabled. *)
Theorem enrollment_completes
    (rand1 rand2 : draws) (value : string) (w : world) (u : account) :
  user w = Some u ->
  6 <= String.length (strip_non_digits value) ->
  let w' := run w [Enable rand1 Resolved; TypeCode value; Verify rand2 Resolved] in
  user_2fa w' !! user_id u
    = Some (Row (Some (generateSecret rand1)) true (generateBackupCodes rand2))
  /\ isEnabled (ui w') = true
  /\ showSetup (ui w') = false
  /\ verificationCode (ui w') = ""
  /\ backupCodes (ui w') = generateBackupCodes rand2
  /\ isEnabled (ui (checkTwoFactorStatus Resolved w')) = true.
Proof.
  intros Hu Hvalue w'. subst w'. unfold run. cbn [fold_left step].
  set (w1 := enableTwoFactor rand1 Resolved w).
  assert (Hu1 : user (onChange value w1) = Some u).
  { subst w1. unfold enableTwoFactor. rewrite Hu. exact Hu. }
  assert (Ht1 : user_2fa w1 !! user_id u
                = Some (Row (Some (generateSecret rand1)) false
                          (default [] (backup_codes <$> user_2fa w !! user_id u)))).
  { subst w1. unfold enableTwoFactor. rewrite Hu. simpl.
    apply upsert_secret_lookup. }
  clearbody w1.
  rewrite (verifyAndEnable_accepted rand2 (onChange value w1) u Hu1
             (typed_code_six_digits value Hvalue)).
  unfold checkTwoFactorStatus. simpl.
  unfold Table.select_is_enabled.
  rewrite update_enabled_lookup, Ht1. simpl. auto 10.
Qed.

Lemma enrollment_completes_witness :
  user (start (Some alice)) = Some alice
  /\ 6 <= String.length (strip_non_digits "12a34-5678")
  /\ user_2fa
       (run (start (Some alice))
          [Enable coin Resolved; TypeCode "12a34-5678"; Verify coin Resolved])
     !! "u1"
     = Some (Row (Some (generateSecret coin)) true (generateBackupCodes coin)).
Proof.
  assert (Hlen : 6 <= String.length (strip_non_digits "12a34-5678"))
    by (simpl; lia).
  split; [reflexivity|]. split; [exact Hlen|].
  exact (proj1 (enrollment_completes coin coin "12a34-5678" (start (Some alice))
                  alice eq_refl Hlen)).
Defined.

(** X11.  Confirming without a row.  When the signed-in user has no row,
    a six-digit code with the update resolving changes nothing in the table,
    yet the success toast is shown, the component displays eight codes and
    its flag says enabled; the next status check says not enabled. *)
Theorem verify_without_record_stores_nothing
    (rand : draws) (w : world) (u : account) :
  user w = Some u ->
  user_2fa w !! user_id u = None ->
  six_digits (verificationCode (ui w)) = true ->
  let w' := verifyAndEnable rand Resolved w in
  user_2fa w' = user_2fa w
  /\ toasts w' = (toasts w ++ [toast_enabled])%list
  /\ isEnabled (ui w') = true
  /\ backupCodes (ui w') = generateBackupCodes rand
  /\ isEnabled (ui (checkTwoFactorStatus Resolved w')) = false.
Proof.
  intros Hu Hnone Hcode w'. subst w'.
  rewrite (verifyAndEnable_accepted rand w u Hu Hcode).
  unfold checkTwoFactorStatus. simpl.
  rewrite (update_enabled_absent _ _ _ Hnone).
  unfold Table.select_is_enabled. rewrite Hnone. simpl. auto 10.
Qed.

Lemma verify_without_record_stores_nothing_witness :
  let w := submit "123456" (start (Some alice)) in
  user w = Some alice
  /\ user_2fa w !! "u1" = None
  /\ six_digits (verificationCode (ui w)) = true
  /\ user_2fa (verifyAndEnable coin Resolved w) = user_2fa w.
Proof.
  intros w. split; [reflexivity|]. split; [reflexivity|]. split; [reflexivity|].
  exact (proj1 (verify_without_record_stores_nothing coin w alice
                  eq_refl eq_refl eq_refl)).
Defined.





(** X13.  Disabling and enrolling again replaces the secret but keeps the
    backup codes that were stored before, while the component displays
    none. *)
Theorem reenrollment_keeps_old_codes
    (rand : draws) (w : world) (u : account) (r : row) :
  user w = Some u ->
  user_2fa w !! user_id u = Some r ->
  let w' := run w [Disable Resolved; Enable rand Resolved] in
  user_2fa w' !! user_id u
    = Some (Row (Some (generateSecret rand)) false (backup_codes r))
  /\ backupCodes (ui w') = [].
Proof.
  intros Hu Hr w'. subst w'. unfold run. cbn [fold_left step].
  unfold disableTwoFactor. rewrite Hu. simpl.
  unfold enableTwoFactor. simpl. rewrite Hu. simpl.
  rewrite upsert_secret_lookup, update_disabled_lookup, Hr. simpl. auto.
Qed.

Lemma reenrollment_keeps_old_codes_witness :
  user enabled_world = Some alice
  /\ user_2fa enabled_world !! "u1" = Some (Row (Some sample_secret) true old_codes)
  /\ user_2fa (run enabled_world [Disable Resolved; Enable coin Resolved]) !! "u1"
     = Some (Row (Some (generateSecret coin)) false old_codes).
Proof.
  split; [reflexivity|]. split; [reflexivity|].
  exact (proj1 (reenrollment_keeps_old_codes coin enabled_world alice
                  (Row (Some sample_secret) true old_codes) eq_refl eq_refl)).
Defined.

(** X14.  Stored backup codes are never read back: in a run of a mounted
    component without a confirmation whose update resolves, whatever the
    table holds, no codes are displayed and the panel stays hidden. *)
Theorem stored_codes_are_never_shown_again
    (u : option account) (t : table) (es : list event) :
  forallb (fun e => negb (is_resolved_verify e)) es = true ->
  backupCodes (ui (run (World u mounted t [] []) es)) = []
  /\ shows_backup_codes (ui (run (World u mounted t [] []) es)) = false.
Proof.
  intros Hes.
  assert (Hrun : forall (l : list event) (w : world),
             forallb (fun e => negb (is_resolved_verify e)) l = true ->
             backupCodes (ui w) = [] -> backupCodes (ui (run w l)) = []).
  { induction l as [|e l IH]; intros w Hl Hw; [exact Hw|].
    simpl in Hl. apply andb_prop in Hl as [He Hl]. apply negb_true_iff in He.
    apply (IH (step w e) Hl).
    destruct e as [u'|resp|rand resp|value|rand resp| |resp]; simpl; try exact Hw.
    - unfold checkTwoFactorStatus. destruct (user w); [|exact Hw].
      destruct resp; exact Hw.
    - unfold enableTwoFactor. destruct (user w); [|exact Hw].
      destruct resp; exact Hw.
    - unfold verifyAndEnable. destruct (user w); [|exact Hw].
      destruct (decide (verificationCode (ui w) = "")); [exact Hw|].
      destruct (code_rejected (verificationCode (ui w))); [exact Hw|].
      destruct resp; first [exact Hw | discriminate He].
    - unfold disableTwoFactor. destruct (user w); [|exact Hw].
      destruct resp; first [exact Hw | reflexivity]. }
  pose proof (Hrun es (World u mounted t [] []) Hes eq_refl) as Hnil.
  split; [exact Hnil|].
  unfold shows_backup_codes. rewrite Hnil. apply andb_false_r.
Qed.

Lemma stored_codes_are_never_shown_again_witness :
  let es := [CheckStatus Resolved; Disable Resolved; Enable coin Resolved;
             TypeCode "123456"; Verify coin (Failed "Failed to fetch")] in
  forallb (fun e => negb (is_resolved_verify e)) es = true
  /\ backupCodes (ui (run (World (Some alice) mounted enabled_table [] []) es)) = [].
Proof.
  intros es. split; [reflexivity|].
  exact (proj1 (stored_codes_are_never_shown_again (Some alice) enabled_table es
                  eq_refl)).
Defined.

(** X15.  When the upsert of [enableTwoFactor] does not resolve, the table
    is unchanged and ["Setup failed"] is shown, but the setup panel is open
    with the QR address of the secret that was not stored. *)
Theorem failed_setup_still_opens_panel
    (rand : draws) (resp : response) (w : world) (u : account) :
  user w = Some u ->
  resp <> Resolved ->
  let w' := enableTwoFactor rand resp w in
  user_2fa w' = user_2fa w
  /\ showSetup (ui w') = true
  /\ qrCodeUrl (ui w') = generateQRCode (email_text u) (generateSecret rand)
  /\ exists message,
       toasts w' = (toasts w ++ [Toast Destructive "Setup failed" message])%list.
Proof.
  intros Hu Hresp w'. subst w'. unfold enableTwoFactor. rewrite Hu.
  destruct resp as [|message|message]; [contradiction| |]; simpl;
    repeat split; exists message; reflexivity.
Qed.

Lemma failed_setup_still_opens_panel_witness :
  user (start (Some alice)) = Some alice
  /\ Failed "Failed to fetch" <> Resolved
  /\ showSetup
       (ui (enableTwoFactor coin (Failed "Failed to fetch") (start (Some alice))))
     = true.
Proof.
  assert (Hresp : Failed "Failed to fetch" <> Resolved) by discriminate.
  split; [reflexivity|]. split; [exact Hresp|].
  exact (proj1 (proj2
           (failed_setup_still_opens_panel coin (Failed "Failed to fetch")
              (start (Some alice)) alice eq_refl Hresp))).
Defined.

(** ** The length of a backup code *)


Lemma significant_bits_le (r : JS.unit_double) : significant_bits r <= length r.
Proof.
  induction r as [|a r IH]; simpl; [lia|].
  destruct (significant_bits r); [destruct a; lia | lia].
Qed.










Lemma code_char_not_newline (s : string) :
  JS.all_chars code_char s = true -> JS.all_chars not_newline s = true.
Proof.
  induction s as [|c s IH]; [reflexivity|]. cbn [JS.all_chars]. intros H.
  apply andb_prop in H as [Hc Hs]. rewrite (IH Hs), andb_true_r.
  revert Hc. destruct c as [[] [] [] [] [] [] [] []]; vm_compute; intros Hc;
    first [reflexivity | discriminate Hc].
Qed.

Lemma line_split (s t x y : string) :
  JS.all_chars not_newline s = true ->
  JS.all_chars not_newline t = true ->
  s ++ newline ++ x = t ++ newline ++ y -> s = t /\ x = y.
Proof.
  revert t. induction s as [|c s IH]; intros [|d t] Hs Ht H.
  - injection H as H. split; [reflexivity | exact H].
  - exfalso. injection H as Hd _. subst d. discriminate Ht.
  - exfalso. injection H as Hc _. subst c. discriminate Hs.
  - cbn [JS.all_chars] in Hs, Ht.
    apply andb_prop in Hs as [_ Hs]. apply andb_prop in Ht as [_ Ht].
    injection H as -> H. destruct (IH t Hs Ht H) as [-> ->].
    split; reflexivity.
Qed.

Lemma join_cons2 (sep s s' : string) (l : list string) :
  JS.join sep (s :: s' :: l) = s ++ sep ++ JS.join sep (s' :: l).
Proof. reflexivity. Qed.

Lemma join_lines_injective (l1 l2 : list string) :
  length l1 = length l2 ->
  Forall (fun s => JS.all_chars not_newline s = true) l1 ->
  Forall (fun s => JS.all_chars not_newline s = true) l2 ->
  JS.join newline l1 = JS.join newline l2 -> l1 = l2.
Proof.
  revert l2. induction l1 as [|s l1 IH]; intros [|t l2] Hlen H1 H2 H;
    try discriminate Hlen; [reflexivity|].
  injection Hlen as Hlen.
  apply Forall_cons_1 in H1 as [Hs H1]. apply Forall_cons_1 in H2 as [Ht H2].
  destruct l1 as [|s' l1], l2 as [|t' l2]; try discriminate Hlen.
  - simpl in H. subst t. reflexivity.
  - rewrite !join_cons2 in H.
    destruct (line_split s t _ _ Hs Ht H) as [-> Hrest].
    f_equal. apply IH; [exact Hlen | assumption | assumption | exact Hrest].
Qed.

Lemma generated_codes_lines (rand : draws) :
  Forall (fun s => JS.all_chars not_newline s = true) (generateBackupCodes rand).
Proof.
  rewrite generateBackupCodes_map. apply Forall_forall. intros code Hin.
  apply list_elem_of_In, in_map_iff in Hin as (i & <- & _).
  apply code_char_not_newline, backup_code_chars.
Qed.

Lemma step_displayed_codes (w : world) (e : event) :
  displayed_codes_ok (ui w) -> displayed_codes_ok (ui (step w e)).
Proof.
  intros Hok. destruct e as [u|resp|rand resp|value|rand resp| |resp]; simpl;
    try exact Hok.
  - unfold checkTwoFactorStatus. destruct (user w); [|exact Hok].
    destruct resp; exact Hok.
  - unfold enableTwoFactor. destruct (user w); [|exact Hok].
    destruct resp; exact Hok.
  - unfold verifyAndEnable. destruct (user w); [|exact Hok].
    destruct (decide (verificationCode (ui w) = "")); [exact Hok|].
    destruct (code_rejected (verificationCode (ui w))); [exact Hok|].
    destruct resp; try exact Hok. right. exists rand. reflexivity.
  - unfold disableTwoFactor. destruct (user w); [|exact Hok].
    destruct resp; try exact Hok. left. reflexivity.
Qed.

Lemma run_displayed_codes (es : list event) (w : world) :
  displayed_codes_ok (ui w) -> displayed_codes_ok (ui (run w es)).
Proof.
  revert w. induction es as [|e es IH]; intros w Hok; [exact Hok|].
  apply (IH (step w e)), step_displayed_codes, Hok.
Qed.

Lemma join_generated_nonempty (rand : draws) :
  JS.join newline (generateBackupCodes rand) <> "".
Proof.
  rewrite generateBackupCodes_map. cbn [seq map]. rewrite join_cons2.
  destruct (backup_code (rand 0)); discriminate.
Qed.

(** X17.  The text [copyBackupCodes] writes to the clipboard determines
    the displayed codes: in runs of mounted components, equal texts come from
    equal code lists. *)
Theorem copied_text_determines_codes
    (u1 u2 : option account) (t1 t2 : table) (es1 es2 : list event) :
  let w1 := run (World u1 mounted t1 [] []) es1 in
  let w2 := run (World u2 mounted t2 [] []) es2 in
  fst (copyBackupCodes w1) = fst (copyBackupCodes w2) ->
  backupCodes (ui w1) = backupCodes (ui w2).
Proof.
  intros w1 w2 Htext. unfold copyBackupCodes in Htext. simpl in Htext.
  assert (H1 : displayed_codes_ok (ui w1))
    by (apply run_displayed_codes; left; reflexivity).
  assert (H2 : displayed_codes_ok (ui w2))
    by (apply run_displayed_codes; left; reflexivity).
  fold newline in Htext.
  destruct H1 as [H1|[rand1 H1]], H2 as [H2|[rand2 H2]];
    rewrite H1, H2 in Htext |- *.
  - reflexivity.
  - exfalso. exact (join_generated_nonempty rand2 (eq_sym Htext)).
  - exfalso. exact (join_generated_nonempty rand1 Htext).
  - apply join_lines_injective; try apply generated_codes_lines; [reflexivity|exact Htext].
Qed.

Lemma copied_text_determines_codes_witness :
  let es := [Enable coin Resolved; TypeCode "123456"; Verify coin Resolved] in
  let w1 := run (World (Some alice) mounted ∅ [] []) es in
  let w2 := run (World (Some alice) mounted enabled_table [] []) es in
  fst (copyBackupCodes w1) = fst (copyBackupCodes w2)
  /\ backupCodes (ui w1) = backupCodes (ui w2).
Proof.
  intros es w1 w2.
  assert (Htext : fst (copyBackupCodes w1) = fst (copyBackupCodes w2))
    by reflexivity.
  split; [exact Htext|].
  exact (copied_text_determines_codes (Some alice) (Some alice) ∅ enabled_table
           es es Htext).
Defined.


Lemma generated_codes_well_formed (rand : draws) :
  well_formed_codes (generateBackupCodes rand).
Proof.
  right. split; [reflexivity|]. apply Forall_forall. intros code Hin.
  rewrite generateBackupCodes_map in Hin.
  apply list_elem_of_In, in_map_iff in Hin as (i & <- & _).
  split; [apply backup_code_chars | apply backup_code_length].
Qed.

Lemma generated_secret_well_formed (rand : draws) (codes : list string) :
  well_formed_codes codes ->
  well_formed_record (Row (Some (generateSecret rand)) false codes).
Proof.
  intros Hcodes. split; [|exact Hcodes].
  exists (generateSecret rand). split; [reflexivity|].
  split; [apply generateSecret_length | apply generateSecret_chars].
Qed.

Lemma table_well_formed_upsert (uid : string) (rand : draws) (t : table) :
  table_well_formed t ->
  table_well_formed (Table.upsert_secret uid (generateSecret rand) t).
Proof.
  intros Hwf k r Hr. destruct (decide (uid = k)) as [<-|Hne].
  - rewrite upsert_secret_lookup in Hr. injection Hr as <-.
    apply generated_secret_well_formed.
    destruct (t !! uid) as [r0|] eqn:Hr0; simpl.
    + exact (proj2 (Hwf uid r0 Hr0)).
    + left. reflexivity.
  - rewrite (upsert_secret_other uid k _ t Hne) in Hr. exact (Hwf k r Hr).
Qed.

Lemma table_well_formed_alter (f : row -> row) (uid : string) (t : table) :
  (forall r, well_formed_record r -> well_formed_record (f r)) ->
  table_well_formed t -> table_well_formed (alter f uid t).
Proof.
  intros Hf Hwf k r Hr. destruct (decide (uid = k)) as [<-|Hne].
  - rewrite lookup_alter_eq in Hr.
    destruct (t !! uid) as [r0|] eqn:Hr0; [|discriminate Hr].
    injection Hr as <-. apply Hf. exact (Hwf uid r0 Hr0).
  - rewrite (lookup_alter_ne f t uid k Hne) in Hr. exact (Hwf k r Hr).
Qed.

Lemma step_table_well_formed (w : world) (e : event) :
  table_well_formed (user_2fa w) -> table_well_formed (user_2fa (step w e)).
Proof.
  intros Hwf. destruct e as [u|resp|rand resp|value|rand resp| |resp]; simpl;
    try exact Hwf.
  - rewrite checkTwoFactorStatus_table. exact Hwf.
  - unfold enableTwoFactor. destruct (user w) as [u|]; [|exact Hwf].
    destruct resp; simpl; [apply table_well_formed_upsert| |]; exact Hwf.
  - unfold verifyAndEnable. destruct (user w) as [u|]; [|exact Hwf].
    destruct (decide (verificationCode (ui w) = "")); [exact Hwf|].
    destruct (code_rejected (verificationCode (ui w))); [exact Hwf|].
    destruct resp; simpl; try exact Hwf.
    apply table_well_formed_alter; [|exact Hwf].
    intros r [Hsec _]. split; [exact Hsec | apply generated_codes_well_formed].
  - unfold disableTwoFactor. destruct (user w) as [u|]; [|exact Hwf].
    destruct resp; simpl; try exact Hwf.
    apply table_well_formed_alter; [|exact Hwf].
    intros r Hr. exact Hr.
Qed.

(** X18.  Every row in a table reached from the empty one holds a secret
    of 32 characters over [A-Z2-7] and either no backup codes or exactly
    eight, each of at most eight characters over [0-9A-Z]. *)
Theorem stored_records_are_well_formed
    (u : option account) (es : list event) (uid : string) (r : row) :
  user_2fa (run (start u) es) !! uid = Some r ->
  well_formed_record r.
Proof.
  assert (Hrun : forall (l : list event) (w : world),
             table_well_formed (user_2fa w) ->
             table_well_formed (user_2fa (run w l))).
  { induction l as [|e l IH]; intros w Hwf; [exact Hwf|].
    apply (IH (step w e)), step_table_well_formed, Hwf. }
  apply (Hrun es (start u)).
  intros k r0 Hr0. simpl in Hr0. rewrite lookup_empty in Hr0. discriminate Hr0.
Qed.

Lemma stored_records_are_well_formed_witness :
  let es := [Enable coin Resolved; TypeCode "123456"; Verify coin Resolved] in
  let r := Row (Some (generateSecret coin)) true (generateBackupCodes coin) in
  user_2fa (run (start (Some alice)) es) !! "u1" = Some r
  /\ well_formed_record r.
Proof.
  intros es r.
  assert (Hr : user_2fa (run (start (Some alice)) es) !! "u1" = Some r)
    by reflexivity.
  split; [exact Hr|].
  exact (stored_records_are_well_formed (Some alice) es "u1" r Hr).
Defined.

(** X19.  A step shows at most one toast, and when that toast is a
    destructive one (a reported failure) the step has changed neither the
    table nor the status flag nor the displayed codes. *)
Theorem reported_failure_changes_nothing (w : world) (e : event) :
  toasts (step w e) = toasts w
  \/ exists t,
       toasts (step w e) = (toasts w ++ [t])%list
       /\ (toast_variant t = Destructive ->
           user_2fa (step w e) = user_2fa w
           /\ isEnabled (ui (step w e)) = isEnabled (ui w)
           /\ backupCodes (ui (step w e)) = backupCodes (ui w)).
Proof.
  destruct e as [u|resp|rand resp|value|rand resp| |resp]; simpl;
    try (left; reflexivity).
  - left. unfold checkTwoFactorStatus. destruct (user w); [|reflexivity].
    destruct resp; reflexivity.
  - unfold enableTwoFactor. destruct (user w) as [u|]; [|left; reflexivity].
    right. destruct resp; simpl; eexists; (split; [reflexivity|]);
      intros H; first [discriminate H | auto].
  - unfold verifyAndEnable. destruct (user w) as [u|]; [|left; reflexivity].
    destruct (decide (verificationCode (ui w) = "")); [left; reflexivity|].
    right. destruct (code_rejected (verificationCode (ui w))).
    + eexists. split; [reflexivity|]. auto.
    + destruct resp; simpl; eexists; (split; [reflexivity|]);
        intros H; first [discriminate H | auto].
  - unfold disableTwoFactor. destruct (user w) as [u|]; [|left; reflexivity].
    right. destruct resp; simpl; eexists; (split; [reflexivity|]);
      intros H; first [discriminate H | auto].
Qed.
